(** * Number Properties API (src/main.py): shallow embedding and specification

    The FastAPI service of [src/main.py] computes, for an integer [num],
    a dictionary of properties, a fun fact and an emoji.  Python
    exceptions are modelled by the [result] monad below; Python integers
    are [Z] (unbounded, floor division and floor modulo, two's-complement
    bit operations as in [Z.land]); Python floats are IEEE binary64
    numbers ([spec_float] with a 53-bit significand).  The network and the
    random source of the fun-fact resolver are inputs of the model, and so
    is the value of [round(num ** (1/3))], which depends on the C
    library's [pow]. *)

From Stdlib Require Import String Ascii.
From Stdlib Require Import ZArith Lia List Factorial SpecFloat.
From stdpp Require Import base numbers gmap sorting.

Import ListNotations.
Open Scope Z_scope.

(** ** Python exceptions *)

Inductive exc_kind := ValueError | TypeError | OverflowError | IndexError.

(** An exception value: its class and [str(e)]. *)
Record py_exc := PyExc { exc_class : exc_kind; exc_message : string }.

Inductive result (A : Type) : Type :=
| Ok (a : A)
| Raise (e : py_exc).
Arguments Ok {A} a.
Arguments Raise {A} e.

Definition bind {A B} (m : result A) (k : A -> result B) : result B :=
  match m with
  | Ok a => k a
  | Raise e => Raise e
  end.

Notation "'let*' x ':=' m 'in' k" := (bind m (fun x => k))
  (at level 200, x name, m at level 100, k at level 200).

(** ** Python builtins used by the module *)

(** [range(a, b)] over integers. *)
Definition z_range (a b : Z) : list Z :=
  map (fun k => a + Z.of_nat k) (seq 0 (Z.to_nat (b - a))).

(** [sum(xs)] *)
Definition py_sum (xs : list Z) : Z := fold_right Z.add 0 xs.

(** Digits of [m >= 0] in base [b >= 2], least significant first;
    [m = 0] gives [[0]].  The fuel [log2 m + 1] bounds the digit count. *)
Fixpoint digits_rev_aux (b : Z) (fuel : nat) (m : Z) : list Z :=
  match fuel with
  | O => []
  | S f => if m <? b then [m] else m mod b :: digits_rev_aux b f (m / b)
  end.

(** Digits of [m >= 0] in base [b], most significant first. *)
Definition digits (b m : Z) : list Z :=
  rev (digits_rev_aux b (S (Z.to_nat (Z.log2 m))) m).

(** The character of a digit [0 <= d < 16] (lowercase, as Python prints). *)
Definition digit_char (d : Z) : ascii :=
  if d <? 10 then ascii_of_nat (48 + Z.to_nat d)
  else ascii_of_nat (97 + Z.to_nat (d - 10)).

Definition digits_string (ds : list Z) : string :=
  String.string_of_list_ascii (map digit_char ds).

Definition sign_prefix (num : Z) : string :=
  if num <? 0 then "-"%string else ""%string.

(** [str(num)] for an int. *)
Definition py_str (num : Z) : string :=
  String.append (sign_prefix num) (digits_string (digits 10 (Z.abs num))).

(** [bin(num)]: sign, then [0b], then the binary digits of [|num|]. *)
Definition py_bin (num : Z) : string :=
  String.append (sign_prefix num)
    (String.append "0b" (digits_string (digits 2 (Z.abs num)))).

(** [hex(num)]: sign, then [0x], then the lowercase hex digits of [|num|]. *)
Definition py_hex (num : Z) : string :=
  String.append (sign_prefix num)
    (String.append "0x" (digits_string (digits 16 (Z.abs num)))).

(** The slice [s[k:]]. *)
Definition py_slice_from (k : nat) (s : string) : string :=
  String.substring k (String.length s - k) s.

(** [math.isqrt(n)]: raises [ValueError] on a negative argument. *)
Definition py_isqrt (n : Z) : result Z :=
  if n <? 0 then Raise (PyExc ValueError "isqrt() argument must be nonnegative")
  else Ok (Z.sqrt n).

(** ** Floats

    A Python [float] is an IEEE 754 binary64 number: a [spec_float] with a
    53-bit significand and [emax = 1024].  [binary_normalize] rounds an
    integer to nearest, ties to even, as [float(m)] does. *)

(** [float(m)] for an int [m]: [OverflowError] when [m] rounds to an
    infinity. *)
Definition py_float_of_int (m : Z) : result spec_float :=
  match binary_normalize 53 1024 m 0 false with
  | S754_infinity _ => Raise (PyExc OverflowError "int too large to convert to float")
  | x => Ok x
  end.

(** The least int that [float] rejects: [2^1024 - 2^970] lies halfway
    between the largest double [(2^53 - 1) * 2^971] and [2^1024], and
    the tie rounds to the even [2^1024]. *)
Definition float_overflow_bound : Z := 2 ^ 1024 - 2 ^ 970.

(** [math.sqrt(x)] on a float: the correctly rounded square root;
    [ValueError] below zero. *)
Definition py_math_sqrt (x : spec_float) : result spec_float :=
  match x with
  | S754_finite true _ _ | S754_infinity true => Raise (PyExc ValueError "math domain error")
  | _ => Ok (SFsqrt 53 1024 x)
  end.

(** [int(x)] on a float: truncation toward zero. *)
Definition py_int_of_float (x : spec_float) : result Z :=
  match x with
  | S754_zero _ => Ok 0
  | S754_finite s m e => let a := Z.shiftl (Zpos m) e in Ok (if s then - a else a)
  | S754_infinity _ => Raise (PyExc OverflowError "cannot convert float infinity to integer")
  | S754_nan => Raise (PyExc ValueError "cannot convert float NaN to integer")
  end.

(** [int(math.sqrt(m))] for an int [m]: [math.sqrt] converts [m] to a
    float first. *)
Definition py_int_math_sqrt (m : Z) : result Z :=
  let* x := py_float_of_int m in
  let* y := py_math_sqrt x in
  py_int_of_float y.

(** [math.factorial(n)]: the product [1 * 2 * ... * n]; raises on [n < 0]. *)
Fixpoint prod_upto (k : nat) : Z :=
  match k with
  | O => 1
  | S k' => Z.of_nat (S k') * prod_upto k'
  end.

Definition py_math_factorial (n : Z) : result Z :=
  if n <? 0 then Raise (PyExc ValueError "factorial() not defined for negative values")
  else Ok (prod_upto (Z.to_nat n)).

(** [round(num ** (1/3))] for [0 <= num < 2^1024 - 2^970]: [float(num)]
    raised by the C library's [pow] to the double nearest to [1/3], then
    rounded to an int.  [pow] is not required to be correctly rounded, so
    the model takes this value as a parameter: every property below holds
    whatever values it has.  It is not always the nearest integer to the
    real cube root: for the cube [10**45] the test below is [False]. *)
Class PyRoundCbrt := py_round_cbrt : Z -> Z.

(** [round(num ** (1/3)) ** 3 == num].  [num ** (1/3)] converts [num] to
    a float first ([OverflowError] beyond the float range); for a negative
    [num] the power is a complex number and [round] raises [TypeError]. *)
Definition py_cube_check {cbrt : PyRoundCbrt} (num : Z) : result bool :=
  let* _ := py_float_of_int num in
  if num <? 0 then Raise (PyExc TypeError "type complex doesn't define __round__ method")
  else Ok (py_round_cbrt num ^ 3 =? num).

(** [math.isqrt(num) ** 2 == num], the perfect-square test of
    [get_local_fun_fact], [classify_number] and [get_number_properties]. *)
Definition perfect_square_check (num : Z) : result bool :=
  let* s := py_isqrt num in Ok (s ^ 2 =? num).

(** [sympy.isprime(num)]: decides primality, [False] below 2.  Modelled
    by trial division up to the square root, which decides the same
    predicate. *)
Definition isprime (num : Z) : bool :=
  (2 <=? num) &&
  forallb (fun d => negb (num mod d =? 0)) (z_range 2 (Z.sqrt num + 1)).

(** ** Primitives of the module *)

(** The pure-Python [check_square] of [is_fibonacci]: [math.isqrt(x)],
    which raises on a negative [x]. *)
Definition check_square (x : Z) : result bool :=
  let* s := py_isqrt x in Ok (s * s =? x).

(** [is_fibonacci(num)]: [check_square(5*num**2 + 4) or
    check_square(5*num**2 - 4)], with Python's short-circuit [or].  The
    second test runs only when the first is false, hence only for
    [num <> 0], where its argument is positive: the SymPy [is_square]
    variants (which return [False] on negatives) give the same results. *)
Definition is_fibonacci (num : Z) : result bool :=
  let* b := check_square (5 * num ^ 2 + 4) in
  if b then Ok true else check_square (5 * num ^ 2 - 4).

(** [get_factors(num)]: a Python set filled over
    [range(1, int(math.sqrt(abs(num))) + 1)] with [{i, num // i}] when
    [num % i == 0], then [sorted]. *)
Definition get_factors (num : Z) : result (list Z) :=
  let* r := py_int_math_sqrt (Z.abs num) in
  let factors : gset Z :=
    fold_left (fun acc i => if num mod i =? 0 then {[i; num / i]} ∪ acc else acc)
      (z_range 1 (r + 1)) ∅ in
  Ok (merge_sort Z.le (elements factors)).

(** The Armstrong test of [classify_number] and of the [is_armstrong]
    property: [num == sum(int(d) ** len(str(abs(num))) for d in str(abs(num)))]. *)
Definition armstrong_sum (m : Z) : Z :=
  let ds := digits 10 m in
  py_sum (map (fun d => d ^ Z.of_nat (length ds)) ds).

Definition armstrong_check (num : Z) : bool :=
  num =? armstrong_sum (Z.abs num).

(** [(num & (num - 1)) == 0 and num != 0] *)
Definition power_of_two_check (num : Z) : bool :=
  (Z.land num (num - 1) =? 0) && negb (num =? 0).

(** [num > 0 and sum(i for i in range(1, num) if num % i == 0) == num] *)
Definition perfect_number_check (num : Z) : bool :=
  (0 <? num) &&
  (py_sum (filter (fun i => num mod i =? 0) (z_range 1 num)) =? num).

(** ** Fun facts *)

Local Open Scope string_scope.

Definition elements_4_to_10 : list string :=
  ["beryllium"; "boron"; "carbon"; "nitrogen"; "oxygen"; "fluorine"; "neon"].

(** [random.choice(seq)]: [seq[r]] for the index [r] drawn below [len(seq)]
    by the random source; the draw [r] is an input of the model, reduced
    modulo the length. *)
Definition py_random_choice {A} (r : nat) (seq : list A) : result A :=
  match seq with
  | [] => Raise (PyExc IndexError "Cannot choose from an empty sequence")
  | a :: _ => Ok (nth (r mod length seq) seq a)
  end.

(** [get_local_fun_fact(num)]: the list literal [facts] is evaluated in
    full, left to right, before [random.choice] picks one entry. *)
Definition get_local_fun_fact {cbrt : PyRoundCbrt} (r : nat) (num : Z) : result string :=
  let n := py_str num in
  let f1 := n ++ " is " ++ (if (num mod 2 =? 0)%Z then "even" else "odd") ++ "." in
  let f2 := n ++ " is " ++ (if isprime num then "prime" else "composite") ++ "." in
  let* fib := is_fibonacci num in
  let f3 := n ++ " is " ++ (if fib then "a Fibonacci number" else "not a Fibonacci number") ++ "." in
  let f4 := n ++ " squared is " ++ py_str (num ^ 2)%Z ++ "." in
  let f5 := n ++ " in binary is " ++ py_slice_from 2 (py_bin num) ++ "." in
  let f6 := n ++ " in hexadecimal is " ++ py_slice_from 2 (py_hex num) ++ "." in
  let* fact :=
    (if (num <? 20)%Z then let* f := py_math_factorial num in Ok (py_str f)
     else Ok "too large to calculate") in
  let f7 := "The factorial of " ++ n ++ " is " ++ fact ++ "." in
  let* sq := perfect_square_check num in
  let f8 := n ++ " is " ++ (if sq then "a perfect square" else "not a perfect square") ++ "." in
  let* cube := py_cube_check num in
  let f9 := n ++ " is " ++ (if cube then "a perfect cube" else "not a perfect cube") ++ "." in
  let f10 := n ++ " is the atomic number of " ++
    (if ((4 <=? num) && (num <=? 10))%Z then nth (Z.to_nat (num - 4)) elements_4_to_10 ""
     else "an unknown element") ++ "." in
  py_random_choice r [f1; f2; f3; f4; f5; f6; f7; f8; f9; f10].

(** The outcome of [requests.get(f"http://numbersapi.com/{num}/math",
    timeout=2)]: a response (status and text), or a timeout or connection
    error, both [RequestException]s. *)
Inductive http_outcome :=
| HttpResponse (status : Z) (text : string)
| HttpTimeout
| HttpConnectionError.

(** [response.raise_for_status()] raises [HTTPError] (a [RequestException])
    for a 4xx or 5xx status; [None] stands for a raised [RequestException]. *)
Definition fetch_fact_text (o : http_outcome) : option string :=
  match o with
  | HttpResponse status text =>
      if ((400 <=? status) && (status <? 600))%Z then None else Some text
  | HttpTimeout | HttpConnectionError => None
  end.

(** [str.strip()]: drops the leading and trailing characters for which
    [str.isspace()] holds.  The text is held as its UTF-8 bytes; the
    whitespace characters are U+0009..U+000D, U+001C..U+0020, U+0085,
    U+00A0, U+1680, U+2000..U+200A, U+2028, U+2029, U+202F, U+205F and
    U+3000, listed here by their encodings. *)
Definition space_encodings : list (list ascii) :=
  map (map ascii_of_nat)
    ([[9]; [10]; [11]; [12]; [13]; [28]; [29]; [30]; [31]; [32];
      [194; 133]; [194; 160]; [225; 154; 128]] ++
     map (fun k => [226; 128; k]) (List.seq 128 11) ++
     [[226; 128; 168]; [226; 128; 169]; [226; 128; 175]; [226; 129; 159];
      [227; 128; 128]])%list%nat.

(** [l] without the prefix [p], if [l] starts with [p]. *)
Fixpoint drop_prefix (p l : list ascii) : option (list ascii) :=
  match p, l with
  | [], _ => Some l
  | c :: p', d :: l' => if Ascii.eqb c d then drop_prefix p' l' else None
  | _ :: _, [] => None
  end.

(** [l] without the first of the encodings [encs] it starts with. *)
Fixpoint drop_first_of (encs : list (list ascii)) (l : list ascii) : option (list ascii) :=
  match encs with
  | [] => None
  | p :: encs' =>
      match drop_prefix p l with
      | Some l' => Some l'
      | None => drop_first_of encs' l
      end
  end.

(** Drops encoded characters from the front of [l] while one of [encs]
    is a prefix; each step drops a byte at least, so [length l] steps
    suffice. *)
Fixpoint drop_while_enc (encs : list (list ascii)) (fuel : nat) (l : list ascii) : list ascii :=
  match fuel with
  | O => l
  | S f =>
      match drop_first_of encs l with
      | Some l' => drop_while_enc encs f l'
      | None => l
      end
  end.

Definition py_strip (s : string) : string :=
  let l := list_ascii_of_string s in
  let l1 := drop_while_enc space_encodings (length l) l in
  let l2 := drop_while_enc (map (@rev ascii) space_encodings) (length l1) (rev l1) in
  string_of_list_ascii (rev l2).

(** [get_fun_fact(num)]: the remote text, stripped; on a
    [RequestException] the local generator, called inside the [except]
    handler, whose own exceptions propagate. *)
Definition get_fun_fact {cbrt : PyRoundCbrt} (o : http_outcome) (r : nat) (num : Z) : result string :=
  match fetch_fact_text o with
  | Some text => Ok (py_strip text)
  | None => get_local_fun_fact r num
  end.

(** ** Classification and the endpoint *)

(** [if cond: classifications.append(tag)] *)
Definition append_if (b : bool) (tag : string) (l : list string) : list string :=
  if b then app l [tag] else l.

(** [classify_number(num)] *)
Definition classify_number {cbrt : PyRoundCbrt} (num : Z) : result (list string) :=
  let c1 := [if (num mod 2 =? 0)%Z then "even" else "odd"] in
  let c2 := app c1 [if isprime num then "prime" else "composite"] in
  let* fib := is_fibonacci num in
  let c3 := append_if fib "fibonacci" c2 in
  let* sq := perfect_square_check num in
  let c4 := append_if sq "perfect-square" c3 in
  let* cube := py_cube_check num in
  let c5 := append_if cube "perfect-cube" c4 in
  let c6 := append_if (power_of_two_check num) "power-of-two" c5 in
  let c7 := append_if (armstrong_check num) "armstrong" c6 in
  let c8 := append_if (perfect_number_check num) "perfect-number" c7 in
  Ok c8.

(** A value of the [properties] dictionary:
    [Union[bool, int, str, List[int]]]. *)
Inductive pyval :=
| VBool (b : bool)
| VInt (z : Z)
| VStr (s : string)
| VList (l : list Z).

(** The [factorial] entry:
    [math.factorial(num) if num < 20 else "Too large to calculate"]. *)
Definition factorial_property (num : Z) : result pyval :=
  if (num <? 20)%Z then let* f := py_math_factorial num in Ok (VInt f)
  else Ok (VStr "Too large to calculate").

(** The [binary] and [hexadecimal] entries: [bin(num)[2:]], [hex(num)[2:]]. *)
Definition binary_property (num : Z) : string := py_slice_from 2 (py_bin num).
Definition hexadecimal_property (num : Z) : string := py_slice_from 2 (py_hex num).

(** The [properties] dictionary literal of [get_number_properties], as an
    association list in insertion order; its entries are evaluated left to
    right and the first exception aborts the whole literal. *)
Definition number_properties_dict {cbrt : PyRoundCbrt} (num : Z) : result (list (string * pyval)) :=
  let* fib := is_fibonacci num in
  let* sq := perfect_square_check num in
  let* cube := py_cube_check num in
  let* fs := get_factors num in
  let* fact := factorial_property num in
  Ok [("is_even", VBool (num mod 2 =? 0)%Z);
      ("is_prime", VBool (isprime num));
      ("is_fibonacci", VBool fib);
      ("is_perfect_square", VBool sq);
      ("is_perfect_cube", VBool cube);
      ("is_power_of_two", VBool (power_of_two_check num));
      ("is_armstrong", VBool (armstrong_check num));
      ("is_perfect_number", VBool (perfect_number_check num));
      ("absolute_value", VInt (Z.abs num));
      ("sign", VStr (if (0 <? num)%Z then "positive" else if (num <? 0)%Z then "negative" else "zero"));
      ("factors", VList fs);
      ("digit_sum", VInt (py_sum (digits 10 (Z.abs num))));
      ("binary", VStr (binary_property num));
      ("hexadecimal", VStr (hexadecimal_property num));
      ("factorial", fact)].

(** [dict.get(key)] on the association list. *)
Definition dict_get (key : string) (d : list (string * pyval)) : option pyval :=
  match find (fun kv => String.eqb (fst kv) key) d with
  | Some (_, v) => Some v
  | None => None
  end.

Definition EMOJIS : list string :=
  ["😀"; "🎉"; "🚀"; "🌟"; "🔥"; "💡"; "🌈"; "🍀"; "🎶"; "📚"].

Record NumberProperties := {
  number : Z;
  properties : list (string * pyval);
  fun_fact : string;
  emoji : string;
  classification : list string
}.

Record ErrorResponse := { error : string; detail : string; suggestion : string }.

(** The HTTP outcome of the route: the model with status 200, or the
    [HTTPException] with status 500 raised by the [except Exception]
    handler. *)
Inductive http_response :=
| Status200 (body : NumberProperties)
| Status500 (body : ErrorResponse).

(** [EMOJIS[abs(num) % len(EMOJIS)]]: the index is in range. *)
Definition emoji_of (num : Z) : string :=
  nth (Z.to_nat (Z.abs num mod Z.of_nat (length EMOJIS))) EMOJIS "".

(** [get_number_properties(num)] for the network outcome [o] and the
    random draw [r] of the fun-fact resolver. *)
Definition get_number_properties {cbrt : PyRoundCbrt} (o : http_outcome) (r : nat) (num : Z) : http_response :=
  let body :=
    let* props := number_properties_dict num in
    let* ff := get_fun_fact o r num in
    let e := emoji_of num in
    let* cls := classify_number num in
    Ok {| number := num; properties := props; fun_fact := ff; emoji := e;
          classification := cls |} in
  match body with
  | Ok np => Status200 np
  | Raise ex =>
      Status500 {| error := "Internal server error"; detail := exc_message ex;
                   suggestion := "Try again later or contact support" |}
  end.


(** An instance of [PyRoundCbrt] for running examples: the integer
    nearest to the real cube root.  No theorem depends on this choice. *)
Fixpoint cbrt_bisect (fuel : nat) (n lo hi : Z) : Z :=
  match fuel with
  | O => lo
  | S f =>
      if (hi - lo <=? 1)%Z then lo
      else let mid := ((lo + hi) / 2)%Z in
           if (mid * mid * mid <=? n)%Z then cbrt_bisect f n mid hi
           else cbrt_bisect f n lo mid
  end.

Definition icbrt (n : Z) : Z :=
  cbrt_bisect (S (Z.to_nat (Z.log2 (n + 1)))) n 0 (n + 1)%Z.

Definition cbrt_nearest : PyRoundCbrt :=
  fun n => let c := icbrt n in if (8 * n <? (2 * c + 1) ^ 3)%Z then c else (c + 1)%Z.


(** * Properties *)

(** ** Rounding an int to a double

    [binary_normalize] as [float(m)] uses it: a non-negative [m] below
    [2^1024 - 2^970] gives a finite double with exponent at most [971],
    from there on it gives [+inf]; the square root of a finite
    non-negative double is finite. *)

Section FloatLemmas.
Local Open Scope Z_scope.

Lemma digits2_pos_size p : digits2_pos p = Pos.size p.
Proof. induction p as [p IH | p IH |]; cbn; rewrite ?IH; reflexivity. Qed.

Lemma Zdigits2_log2 x : 0 < x -> Zdigits2 x = Z.log2 x + 1.
Proof.
  intros Hx. destruct x as [| p | p]; try lia. cbn [Zdigits2].
  rewrite digits2_pos_size.
  destruct p as [q | q |]; cbn [Pos.size Z.log2]; [rewrite Pos2Z.inj_succ; lia | rewrite Pos2Z.inj_succ; lia | reflexivity].
Qed.

Lemma Zdigits2_le x k : 0 < x -> 0 <= k -> x < 2 ^ k -> Zdigits2 x <= k.
Proof.
  intros Hx Hk Hlt. rewrite Zdigits2_log2 by lia.
  assert (Z.log2 x < k); [| lia].
  apply Z.log2_lt_pow2; lia.
Qed.

Lemma Zdigits2_ge x k : 0 <= k -> 2 ^ k <= x -> k + 1 <= Zdigits2 x.
Proof.
  intros Hk Hle. assert (0 < x) by (pose proof (Z.pow_pos_nonneg 2 k ltac:(lia) Hk); lia).
  rewrite Zdigits2_log2 by lia.
  assert (k <= Z.log2 x); [| lia].
  apply Z.log2_le_pow2; lia.
Qed.

Lemma Zdigits2_eq x k : 0 <= k -> 2 ^ k <= x < 2 ^ (k + 1) -> Zdigits2 x = k + 1.
Proof.
  intros Hk Hx. rewrite Zdigits2_log2 by (pose proof (Z.pow_pos_nonneg 2 k ltac:(lia) Hk); lia).
  rewrite (Z.log2_unique x k); [lia | lia |]. rewrite <- Z.add_1_r. exact Hx.
Qed.

Lemma shr_1_nonneg M R S : 0 <= M ->
  shr_1 (Build_shr_record M R S) = Build_shr_record (Z.div2 M) (Z.odd M) (R || S).
Proof.
  intros HM. destruct M as [| p | p]; [reflexivity | | lia].
  destruct p; reflexivity.
Qed.

Lemma iter_pos_nat {A} (f : A -> A) p x : SpecFloat.iter_pos f p x = Nat.iter (Pos.to_nat p) f x.
Proof.
  revert x. induction p as [p IH | p IH |]; intros x; cbn [SpecFloat.iter_pos].
  - rewrite IH, IH, Pos2Nat.inj_xI.
    replace (S (2 * Pos.to_nat p)) with (Pos.to_nat p + (Pos.to_nat p + 1))%nat by lia.
    rewrite !Nat.iter_add. reflexivity.
  - rewrite IH, IH, Pos2Nat.inj_xO, <- Nat.iter_add. f_equal. lia.
  - reflexivity.
Qed.

Lemma shr_iter_spec M R Sb (k : nat) : 0 <= M ->
  Nat.iter (S k) shr_1 (Build_shr_record M R Sb) =
  Build_shr_record (M / 2 ^ (Z.of_nat k + 1)) (Z.odd (M / 2 ^ Z.of_nat k))
    (R || Sb || negb (M mod 2 ^ Z.of_nat k =? 0)).
Proof.
  intros HM. induction k as [| k IH].
  - cbn [Nat.iter]. rewrite shr_1_nonneg by exact HM.
    rewrite Z.div2_div, Z.div_1_r, Z.mod_1_r. cbn. rewrite Bool.orb_false_r. reflexivity.
  - change (Nat.iter (S (S k)) shr_1 (Build_shr_record M R Sb))
      with (shr_1 (Nat.iter (S k) shr_1 (Build_shr_record M R Sb))).
    rewrite IH, shr_1_nonneg by (apply Z.div_pos; [lia | apply Z.pow_pos_nonneg; lia]).
    rewrite Nat2Z.inj_succ.
    assert (Hp : 0 < 2 ^ Z.of_nat k) by (apply Z.pow_pos_nonneg; lia).
    f_equal.
    + rewrite Z.div2_div, Z.div_div by lia. f_equal.
      rewrite <- (Z.pow_1_r 2) at 2. rewrite <- Z.pow_add_r by lia. f_equal.
    + rewrite <- Z.add_1_r, Z.pow_add_r, Z.pow_1_r, Z.rem_mul_r by lia.
      rewrite Zmod_odd.
      pose proof (Z.mod_pos_bound M (2 ^ Z.of_nat k) Hp).
      destruct (Z.odd (M / 2 ^ Z.of_nat k)), (Z.eqb_spec (M mod 2 ^ Z.of_nat k) 0),
        (Z.eqb_spec (M mod 2 ^ Z.of_nat k + 2 ^ Z.of_nat k * 1) 0),
        (Z.eqb_spec (M mod 2 ^ Z.of_nat k + 2 ^ Z.of_nat k * 0) 0), R, Sb;
        cbn; lia.
Qed.

Lemma shr_spec M R Sb e n : 0 <= M ->
  shr (Build_shr_record M R Sb) e n =
  if 0 <? n then
    (Build_shr_record (M / 2 ^ n) (Z.odd (M / 2 ^ (n - 1)))
       (R || Sb || negb (M mod 2 ^ (n - 1) =? 0)), e + n)
  else (Build_shr_record M R Sb, e).
Proof.
  intros HM. destruct n as [| p | p]; [reflexivity | | reflexivity].
  cbn [shr Z.ltb Z.compare]. rewrite iter_pos_nat.
  destruct (Pos2Nat.is_succ p) as [k Hk]. rewrite Hk, shr_iter_spec by exact HM.
  assert (Hz : Zpos p = Z.of_nat k + 1) by (rewrite <- positive_nat_Z, Hk; lia).
  rewrite Hz. replace (Z.of_nat k + 1 - 1) with (Z.of_nat k) by lia. reflexivity.
Qed.

Lemma Zdigits2_nonneg x : 0 <= Zdigits2 x.
Proof. destruct x; cbn; lia. Qed.

Lemma Zdigits2_upper x : 0 <= x -> x < 2 ^ Zdigits2 x.
Proof.
  intros Hx. destruct (Z.eq_dec x 0) as [->|Hx0]; [reflexivity|].
  rewrite Zdigits2_log2 by lia. apply Z.log2_spec; lia.
Qed.

Lemma Zdigits2_lower x : 0 < x -> 2 ^ (Zdigits2 x - 1) <= x.
Proof.
  intros Hx. rewrite Zdigits2_log2 by lia. replace (Z.log2 x + 1 - 1) with (Z.log2 x) by lia.
  apply Z.log2_spec; lia.
Qed.

Lemma shr_fexp_info m e l mrs e' : 0 <= m -> -1074 <= e ->
  shr_fexp 53 1024 m e l = (mrs, e') ->
  (Zdigits2 m <= 53 /\ shr_m mrs = m /\ e' = e) \/
  (53 < Zdigits2 m /\ shr_m mrs = m / 2 ^ (Zdigits2 m - 53) /\ e' = Zdigits2 m + e - 53).
Proof.
  intros Hm He H. unfold shr_fexp, fexp, emin in H.
  replace (Z.max (Zdigits2 m + e - 53) (3 - 1024 - 53) - e)
    with (Z.max (Zdigits2 m - 53) (-1074 - e)) in H by lia.
  remember (Z.max (Zdigits2 m - 53) (-1074 - e)) as n eqn:Hn.
  assert (Hsh : forall R S, shr (Build_shr_record m R S) e n = (mrs, e') ->
    (Zdigits2 m <= 53 /\ shr_m mrs = m /\ e' = e) \/
    (53 < Zdigits2 m /\ shr_m mrs = m / 2 ^ (Zdigits2 m - 53) /\ e' = Zdigits2 m + e - 53)).
  { intros R S Hs. rewrite shr_spec in Hs by exact Hm.
    destruct (Z.ltb_spec 0 n) as [Hlt | Hge]; injection Hs as Hs1 Hs2; subst mrs e'.
    - right. cbn [shr_m]. assert (n = Zdigits2 m - 53) as -> by lia. lia.
    - left. cbn [shr_m]. lia. }
  destruct l as [| [ | | ]]; cbn [shr_record_of_loc] in H; exact (Hsh _ _ H).
Qed.

Lemma round_nearest_even_cases x l :
  round_nearest_even x l = x \/ round_nearest_even x l = x + 1.
Proof.
  destruct l as [| [ | | ]]; cbn; auto. destruct (Z.even x); auto.
Qed.

Lemma pow2_53 : 2 ^ 53 = 9007199254740992.
Proof. reflexivity. Qed.

Lemma binary_round_aux_cases mx ex lx : 0 <= mx -> -1074 <= ex ->
  match binary_round_aux 53 1024 false mx ex lx with
  | S754_zero s => s = false /\ mx = 0
  | S754_finite s m e => s = false /\ Zpos m <= 2 ^ 53 /\
      Z.max ex (Zdigits2 mx + ex - 53) <= e <= Z.min 971 (Z.max ex (Zdigits2 mx + ex - 52))
  | S754_infinity s => s = false /\ 971 < Z.max ex (Zdigits2 mx + ex - 52)
  | S754_nan => False
  end.
Proof.
  intros Hm He. unfold binary_round_aux.
  destruct (shr_fexp 53 1024 mx ex lx) as [mrs1 e1] eqn:E1.
  set (r := round_nearest_even (shr_m mrs1) (loc_of_shr_record mrs1)).
  destruct (shr_fexp 53 1024 r e1 loc_Exact) as [mrs2 e2] eqn:E2.
  pose proof (Zdigits2_upper mx Hm) as HmD.
  pose proof (Zdigits2_nonneg mx) as HD0.
  assert (Hm1 : 0 <= shr_m mrs1 < 2 ^ 53 /\ shr_m mrs1 <= mx /\ (0 < mx -> 0 < shr_m mrs1) /\
    e1 = Z.max ex (Zdigits2 mx + ex - 53)).
  { destruct (shr_fexp_info mx ex lx mrs1 e1 Hm He E1) as [(HD & -> & ->) | (HD & -> & ->)].
    - split; [split; [lia|] | split; [lia | split; lia]].
      eapply Z.lt_le_trans; [exact HmD|]. apply Z.pow_le_mono_r; lia.
    - assert (Hp : 0 < 2 ^ (Zdigits2 mx - 53)) by (apply Z.pow_pos_nonneg; lia).
      split; [split | split; [| split]].
      + apply Z.div_pos; lia.
      + apply Z.div_lt_upper_bound; [lia|].
        replace (2 ^ (Zdigits2 mx - 53) * 2 ^ 53) with (2 ^ (Zdigits2 mx - 53 + 53))
          by (rewrite Z.pow_add_r by lia; lia).
        replace (Zdigits2 mx - 53 + 53) with (Zdigits2 mx) by lia. exact HmD.
      + apply Z.div_le_upper_bound; [lia|]. nia.
      + intros Hpos. apply Z.div_str_pos. split; [lia|].
        pose proof (Zdigits2_lower mx Hpos).
        eapply Z.le_trans; [|eassumption]. apply Z.pow_le_mono_r; lia.
      + lia. }
  assert (Hr : 0 <= r <= 2 ^ 53 /\ (0 < mx -> 0 < r) /\ shr_m mrs1 <= r /\
    (r = 2 ^ 53 -> 53 <= Zdigits2 mx)).
  { destruct (round_nearest_even_cases (shr_m mrs1) (loc_of_shr_record mrs1)) as [Hr | Hr];
      fold r in Hr; rewrite Hr; (split; [lia | split; [lia | split; [lia|]]]); intros Hr2.
    - assert (2 ^ 52 <= mx) by (rewrite pow2_53 in *; lia).
      pose proof (Zdigits2_ge mx 52 ltac:(lia) H). lia.
    - assert (2 ^ 52 <= mx) by (rewrite pow2_53 in *; lia).
      pose proof (Zdigits2_ge mx 52 ltac:(lia) H). lia. }
  assert (He1 : -1074 <= e1) by lia.
  destruct (Z.eq_dec r 0) as [Hr0 | Hr0].
  - (* the rounded mantissa is zero *)
    destruct (shr_fexp_info r e1 loc_Exact mrs2 e2 ltac:(lia) He1 E2) as [(HD & Hm2 & ->) | (HD & Hm2 & ->)];
      rewrite Hm2; rewrite Hr0 in *; cbn in HD |- *; try lia; (split; [reflexivity | lia]).
  - assert (Hdr : Zdigits2 r <= 54).
    { apply Zdigits2_le; [lia | lia | change (2 ^ 54) with 18014398509481984; rewrite pow2_53 in Hr; lia]. }
    destruct (shr_fexp_info r e1 loc_Exact mrs2 e2 ltac:(lia) He1 E2) as [(HD & Hm2 & ->) | (HD & Hm2 & ->)];
      rewrite Hm2.
    + destruct r as [| p | p] eqn:Er; try lia.
      change (1024 - 53) with 971.
      destruct (Z.leb_spec e1 971); (repeat split; try reflexivity; lia).
    + assert (Hr53 : r = 2 ^ 53).
      { assert (Hge : 2 ^ 53 <= r); [|lia].
        destruct (Z.le_gt_cases (2 ^ 53) r) as [|Hlt]; [assumption|].
        pose proof (Zdigits2_le r 53 ltac:(lia) ltac:(lia) Hlt). lia. }
      replace (Zdigits2 r) with 54 by (rewrite Hr53; reflexivity).
      rewrite Hr53.
      specialize (proj2 (proj2 (proj2 Hr)) Hr53) as HD53.
      change (2 ^ 53 / 2 ^ (54 - 53)) with (Zpos 4503599627370496).
      change (1024 - 53) with 971.
      destruct (Z.leb_spec (54 + e1 - 53) 971); (repeat split; try reflexivity; rewrite ?pow2_53; lia).
Qed.

Lemma iter_xO p d : Zpos (Pos.iter xO p d) = Zpos p * 2 ^ Zpos d.
Proof.
  induction d as [| d IH] using Pos.peano_ind.
  - cbn. lia.
  - rewrite Pos.iter_succ, Pos2Z.inj_succ, Z.pow_succ_r by lia.
    change (Zpos (Pos.iter xO p d)~0) with (2 * Zpos (Pos.iter xO p d)). rewrite IH. lia.
Qed.

Lemma binary_normalize_pos p :
  binary_normalize 53 1024 (Zpos p) 0 false =
  if Zdigits2 (Zpos p) <? 53
  then binary_round_aux 53 1024 false (Zpos p * 2 ^ (53 - Zdigits2 (Zpos p)))
         (Zdigits2 (Zpos p) - 53) loc_Exact
  else binary_round_aux 53 1024 false (Zpos p) 0 loc_Exact.
Proof.
  cbn [binary_normalize]. unfold binary_round, shl_align, fexp, emin.
  change (Zpos (digits2_pos p)) with (Zdigits2 (Zpos p)).
  pose proof (Zdigits2_nonneg (Zpos p)) as HD.
  assert (HD1 : 1 <= Zdigits2 (Zpos p)) by (cbn [Zdigits2]; lia).
  replace (Z.max (Zdigits2 (Zpos p) + 0 - 53) (3 - 1024 - 53) - 0)
    with (Zdigits2 (Zpos p) - 53) by lia.
  rewrite Z.max_l by lia. rewrite Z.add_0_r.
  destruct (Z.ltb_spec (Zdigits2 (Zpos p)) 53) as [Hlt | Hge].
  - destruct (Zdigits2 (Zpos p) - 53) as [| d | d] eqn:Ed; try lia.
    rewrite iter_xO. f_equal. f_equal. f_equal. lia.
  - destruct (Zdigits2 (Zpos p) - 53) as [| d | d] eqn:Ed; try lia; reflexivity.
Qed.


Lemma round_nearest_even_loc x y R S :
  round_nearest_even x (loc_of_shr_record (Build_shr_record y R S)) = x \/
  (R = true /\ round_nearest_even x (loc_of_shr_record (Build_shr_record y R S)) = x + 1).
Proof. destruct R, S; cbn; auto. destruct (Z.even x); auto. Qed.

Lemma round_nearest_even_odd_up x y S : Z.even x = false ->
  round_nearest_even x (loc_of_shr_record (Build_shr_record y true S)) = x + 1.
Proof. intros Hx. destruct S; cbn; [reflexivity | rewrite Hx; reflexivity]. Qed.

Lemma binary_normalize_top p : Zdigits2 (Zpos p) = 1024 ->
  if Zpos p <? float_overflow_bound
  then exists mx, binary_normalize 53 1024 (Zpos p) 0 false = S754_finite false mx 971 /\
         Zpos mx <= 2 ^ 53
  else binary_normalize 53 1024 (Zpos p) 0 false = S754_infinity false.
Proof.
  intros HD. rewrite binary_normalize_pos, HD. change (1024 <? 53) with false. cbv iota.
  unfold float_overflow_bound.
  assert (Hp : 2 ^ 1023 <= Zpos p < 2 ^ 1024).
  { split; [pose proof (Zdigits2_lower (Zpos p) ltac:(lia)) as H; rewrite HD in H; exact H|].
    pose proof (Zdigits2_upper (Zpos p) ltac:(lia)) as H; rewrite HD in H; exact H. }
  unfold binary_round_aux.
  assert (E1 : shr_fexp 53 1024 (Zpos p) 0 loc_Exact =
    (Build_shr_record (Zpos p / 2 ^ 971) (Z.odd (Zpos p / 2 ^ 970))
       (negb (Zpos p mod 2 ^ 970 =? 0)), 971)).
  { unfold shr_fexp. rewrite HD. cbn [shr_record_of_loc].
    change (fexp 53 1024 (1024 + 0) - 0) with 971.
    rewrite shr_spec by lia. reflexivity. }
  rewrite E1. cbn [shr_m].
  set (q := Zpos p / 2 ^ 970).
  assert (Hq2 : Zpos p / 2 ^ 971 = q / 2).
  { unfold q. rewrite Z.div_div by lia. reflexivity. }
  assert (Hq : 2 ^ 53 <= q < 2 ^ 54).
  { unfold q. split.
    - apply Z.div_le_lower_bound; [lia|]. change (2 ^ 970 * 2 ^ 53) with (2 ^ 1023). lia.
    - apply Z.div_lt_upper_bound; [lia|]. change (2 ^ 970 * 2 ^ 54) with (2 ^ 1024). lia. }
  rewrite Hq2.
  set (R := Z.odd q). set (S := negb (Zpos p mod 2 ^ 970 =? 0)).
  destruct (Z.ltb_spec (Zpos p) (2 ^ 1024 - 2 ^ 970)) as [Hlt | Hge].
  - assert (Hq1 : q < 2 ^ 54 - 1).
    { unfold q. apply Z.div_lt_upper_bound; [lia|].
      change (2 ^ 970 * (2 ^ 54 - 1)) with (2 ^ 1024 - 2 ^ 970). exact Hlt. }
    set (r := round_nearest_even (q / 2) (loc_of_shr_record (Build_shr_record (q / 2) R S))).
    assert (Hr : 2 ^ 52 <= r < 2 ^ 53).
    { pose proof (Z.div_mod q 2 ltac:(lia)) as Hdm.
      pose proof (Z.mod_pos_bound q 2 ltac:(lia)) as Hmb.
      rewrite Zmod_odd in Hdm.
      destruct (round_nearest_even_loc (q / 2) (q / 2) R S) as [Hr | [HR Hr]]; fold r in Hr;
        rewrite Hr; [| unfold R in HR; rewrite HR in Hdm];
        destruct (Z.odd q); rewrite ?pow2_53 in *; change (2 ^ 52) with 4503599627370496;
        change (2 ^ 54) with 18014398509481984 in *; lia. }
    destruct (shr_fexp 53 1024 r 971 loc_Exact) as [mrs2 e2] eqn:E2.
    destruct (shr_fexp_info r 971 loc_Exact mrs2 e2 ltac:(lia) ltac:(lia) E2)
      as [(HD2 & Hm2 & ->) | (HD2 & Hm2 & ->)].
    + rewrite Hm2. destruct r as [| m | m] eqn:Er; try lia.
      exists m. split; [reflexivity | lia].
    + exfalso. pose proof (Zdigits2_le r 53 ltac:(lia) ltac:(lia) (proj2 Hr)). lia.
  - assert (Hq1 : q = 2 ^ 54 - 1).
    { assert (2 ^ 54 - 1 <= q); [|lia]. unfold q.
      apply Z.div_le_lower_bound; [lia|].
      change (2 ^ 970 * (2 ^ 54 - 1)) with (2 ^ 1024 - 2 ^ 970). exact Hge. }
    assert (HR : R = true) by (unfold R; rewrite Hq1; reflexivity).
    rewrite HR, Hq1.
    change ((2 ^ 54 - 1) / 2) with 9007199254740991.
    rewrite round_nearest_even_odd_up by reflexivity.
    assert (E2 : shr_fexp 53 1024 (9007199254740991 + 1) 971 loc_Exact =
      (Build_shr_record 4503599627370496 false false, 972)) by reflexivity.
    rewrite E2. reflexivity.
Qed.

Lemma binary_normalize_finite m : 0 <= m < float_overflow_bound ->
  match binary_normalize 53 1024 m 0 false with
  | S754_zero s => s = false
  | S754_finite s mx ex => s = false /\ Zpos mx <= 2 ^ 53 /\ -1074 <= ex <= 971
  | _ => False
  end.
Proof.
  intros Hm. destruct m as [| p | p]; [reflexivity | | lia].
  pose proof (Zdigits2_upper (Zpos p) ltac:(lia)) as HpD.
  pose proof (Zdigits2_nonneg (Zpos p)) as HD0.
  assert (HD : Zdigits2 (Zpos p) <= 1024).
  { apply Zdigits2_le; [lia | lia|]. unfold float_overflow_bound in Hm. lia. }
  destruct (Z.eq_dec (Zdigits2 (Zpos p)) 1024) as [HD1024 | HD1024].
  - pose proof (binary_normalize_top p HD1024) as Ht.
    destruct (Z.ltb_spec (Zpos p) float_overflow_bound); [|lia].
    destruct Ht as [mx [-> Hmx]]. repeat split; lia.
  - rewrite binary_normalize_pos.
    destruct (Z.ltb_spec (Zdigits2 (Zpos p)) 53) as [Hlt | Hge].
    + assert (Hmz : 0 <= Zpos p * 2 ^ (53 - Zdigits2 (Zpos p)) < 2 ^ 53).
      { assert (0 < 2 ^ (53 - Zdigits2 (Zpos p))) by (apply Z.pow_pos_nonneg; lia).
        split; [lia|].
        replace (2 ^ 53) with (2 ^ Zdigits2 (Zpos p) * 2 ^ (53 - Zdigits2 (Zpos p)))
          by (rewrite <- Z.pow_add_r by lia; f_equal; lia).
        apply Z.mul_lt_mono_pos_r; lia. }
      assert (Hdz : Zdigits2 (Zpos p * 2 ^ (53 - Zdigits2 (Zpos p))) <= 53)
        by (apply Zdigits2_le; lia).
      pose proof (binary_round_aux_cases (Zpos p * 2 ^ (53 - Zdigits2 (Zpos p)))
        (Zdigits2 (Zpos p) - 53) loc_Exact ltac:(lia) ltac:(lia)) as Hc.
      destruct (binary_round_aux 53 1024 false _ _ loc_Exact); intuition lia.
    + pose proof (binary_round_aux_cases (Zpos p) 0 loc_Exact ltac:(lia) ltac:(lia)) as Hc.
      destruct (binary_round_aux 53 1024 false _ _ loc_Exact); intuition lia.
Qed.

Lemma binary_normalize_overflow m : float_overflow_bound <= m ->
  binary_normalize 53 1024 m 0 false = S754_infinity false.
Proof.
  intros Hm. unfold float_overflow_bound in Hm.
  destruct m as [| p | p]; [lia | | lia].
  pose proof (Zdigits2_ge (Zpos p) 1023 ltac:(lia) ltac:(lia)) as HD.
  destruct (Z.eq_dec (Zdigits2 (Zpos p)) 1024) as [HD1024 | HD1024].
  - pose proof (binary_normalize_top p HD1024) as Ht.
    unfold float_overflow_bound in Ht.
    destruct (Z.ltb_spec (Zpos p) (2 ^ 1024 - 2 ^ 970)); [lia|]. exact Ht.
  - rewrite binary_normalize_pos.
    destruct (Z.ltb_spec (Zdigits2 (Zpos p)) 53) as [Hlt | Hge]; [lia|].
    pose proof (binary_round_aux_cases (Zpos p) 0 loc_Exact ltac:(lia) ltac:(lia)) as Hc.
    destruct (binary_round_aux 53 1024 false _ _ loc_Exact); try lia.
    destruct Hc as [-> _]. reflexivity.
Qed.

Lemma SFsqrt_core_bounds mx ex : 0 < mx <= 2 ^ 53 -> -1074 <= ex <= 971 ->
  let '(q, e', _) := SFsqrt_core_binary 53 1024 mx ex in
  0 <= q /\ -1074 <= e' /\ Z.max e' (Zdigits2 q + e' - 52) <= 971.
Proof.
  intros Hm He. unfold SFsqrt_core_binary, fexp, emin.
  set (e' := Z.min _ (Z.div2 ex)).
  assert (He' : -1074 <= e' <= ex / 2).
  { unfold e'. rewrite !Z.div2_div. Z.div_mod_to_equations. lia. }
  assert (Hs : 0 <= ex - 2 * e') by (Z.div_mod_to_equations; lia).
  set (m' := match ex - 2 * e' with Zpos _ => Z.shiftl mx (ex - 2 * e') | Z0 => mx | Zneg _ => 0 end).
  assert (Hm' : m' = mx * 2 ^ (ex - 2 * e')).
  { unfold m'. destruct (ex - 2 * e') as [| p | p] eqn:Es; try lia.
    - rewrite Z.shiftl_mul_pow2 by lia. reflexivity. }
  destruct (Z.sqrtrem m') as [q r] eqn:Eq.
  assert (Hq : q = Z.sqrt m') by (pose proof (Z.sqrtrem_sqrt m') as H; rewrite Eq in H; exact H).
  set (k := (ex - 2 * e' + 1) / 2).
  assert (Hk : ex - 2 * e' <= 2 * k <= ex - 2 * e' + 1) by (unfold k; Z.div_mod_to_equations; lia).
  assert (HP : m' < 2 ^ (27 + k) * 2 ^ (27 + k)).
  { rewrite <- Z.pow_add_r by lia. rewrite Hm'.
    apply Z.lt_le_trans with (2 ^ 54 * 2 ^ (ex - 2 * e')).
    - apply Z.mul_lt_mono_pos_r; [apply Z.pow_pos_nonneg; lia | rewrite pow2_53 in Hm; change (2 ^ 54) with 18014398509481984; lia].
    - rewrite <- Z.pow_add_r by lia. apply Z.pow_le_mono_r; lia. }
  assert (Hm'0 : 0 <= m') by (rewrite Hm'; pose proof (Z.pow_pos_nonneg 2 (ex - 2 * e') ltac:(lia) Hs); nia).
  assert (Hq0 : 0 <= q) by (rewrite Hq; apply Z.sqrt_nonneg).
  assert (Hqlt : q < 2 ^ (27 + k)).
  { pose proof (Z.sqrt_spec m' Hm'0) as [Hs1 _]. rewrite <- Hq in Hs1.
    pose proof (Z.pow_pos_nonneg 2 (27 + k) ltac:(lia) ltac:(lia)). nia. }
  destruct (Z.eq_dec q 0) as [-> | Hq1].
  - cbn. lia.
  - pose proof (Zdigits2_le q (27 + k) ltac:(lia) ltac:(lia) Hqlt). lia.
Qed.

Lemma SFsqrt_finite mx ex : Zpos mx <= 2 ^ 53 -> -1074 <= ex <= 971 ->
  match SFsqrt 53 1024 (S754_finite false mx ex) with
  | S754_zero _ | S754_finite _ _ _ => True
  | _ => False
  end.
Proof.
  intros Hm He. cbn [SFsqrt].
  pose proof (SFsqrt_core_bounds (Zpos mx) ex ltac:(lia) He) as Hc.
  destruct (SFsqrt_core_binary 53 1024 (Zpos mx) ex) as [[q e'] l].
  destruct Hc as (Hq & He' & Hb).
  pose proof (binary_round_aux_cases q e' l Hq He') as Hr.
  destruct (binary_round_aux 53 1024 false q e' l); tauto || lia.
Qed.

End FloatLemmas.

Section Properties.
Context {cbrt : PyRoundCbrt}.

Lemma py_isqrt_nonneg x : (0 <= x)%Z -> py_isqrt x = Ok (Z.sqrt x).
Proof. intros Hx. unfold py_isqrt. destruct (Z.ltb_spec x 0); [lia | reflexivity]. Qed.

Lemma py_isqrt_neg x : (x < 0)%Z ->
  py_isqrt x = Raise (PyExc ValueError "isqrt() argument must be nonnegative").
Proof. intros Hx. unfold py_isqrt. destruct (Z.ltb_spec x 0); [reflexivity | lia]. Qed.

(** [is_fibonacci] never raises: [5*num**2 - 4] is only tested for
    [num <> 0], where it is positive. *)
Lemma is_fibonacci_ok num : exists b, is_fibonacci num = Ok b.
Proof.
  destruct (Z.eq_dec num 0) as [-> | Hn]; [vm_compute; eauto |].
  assert (H1 : (1 <= num ^ 2)%Z).
  { rewrite Z.pow_2_r. destruct (Z.ltb_spec num 0); nia. }
  unfold is_fibonacci, check_square.
  rewrite py_isqrt_nonneg by lia. cbn.
  destruct (_ =? _)%Z; [eauto |].
  rewrite py_isqrt_nonneg by lia. cbn. eauto.
Qed.

(** ** C1: the endpoint on negative numbers *)

Definition internal_error (msg : string) : ErrorResponse :=
  {| error := "Internal server error"; detail := msg;
     suggestion := "Try again later or contact support" |}.

(** C1 (code_bug).  Every negative [num] makes [GET /number/{num}] answer
    500: [math.isqrt(num)] in the [is_perfect_square] entry raises
    [ValueError], whatever the network and the random source do. *)
Theorem get_number_properties_negative_500 (o : http_outcome) (r : nat) (num : Z) :
  (num < 0)%Z ->
  get_number_properties o r num = Status500 (internal_error "isqrt() argument must be nonnegative").
Proof.
  intros Hneg. unfold get_number_properties, number_properties_dict.
  destruct (is_fibonacci_ok num) as [b Hb]. rewrite Hb. cbn.
  unfold perfect_square_check. rewrite py_isqrt_neg by exact Hneg. reflexivity.
Qed.

(** ** C3: the perfect-square test *)

(** C3 (code_bug).  The perfect-square test [math.isqrt(num) ** 2 == num]
    is not total: at [num = -1] it raises [ValueError] instead of
    returning [False], in [get_number_properties] and [classify_number]
    alike. *)
Theorem perfect_square_check_minus_one_raises :
  perfect_square_check (-1) = Raise (PyExc ValueError "isqrt() argument must be nonnegative") /\
  classify_number (-1) = Raise (PyExc ValueError "isqrt() argument must be nonnegative").
Proof. split; vm_compute; reflexivity. Qed.

(** On [num >= 0] the test is [isqrt(num)^2 == num]; when it holds,
    [num >= 0]. *)
Lemma perfect_square_check_nonneg num : (0 <= num)%Z ->
  perfect_square_check num = Ok (Z.sqrt num ^ 2 =? num)%Z.
Proof. intros H. unfold perfect_square_check. rewrite py_isqrt_nonneg by exact H. reflexivity. Qed.

Lemma perfect_square_check_true num :
  perfect_square_check num = Ok true -> (0 <= num)%Z /\ (Z.sqrt num * Z.sqrt num = num)%Z.
Proof.
  unfold perfect_square_check, py_isqrt.
  destruct (Z.ltb_spec num 0); cbn; [discriminate |].
  intros Heq. injection Heq as Heq. apply Z.eqb_eq in Heq.
  rewrite Z.pow_2_r in Heq. split; [lia | exact Heq].
Qed.

(** ** C4: the fun-fact resolver *)



(** ** C2: [get_factors] *)

(** C2 (code_bug).  For a negative [num] the cofactor [num // i] is
    negative: [get_factors(-6)] is [[-6, -3, 1, 2]], not the positive
    divisors [[1, 2, 3, 6]] of [6]. *)
Theorem get_factors_minus_six :
  get_factors (-6) = Ok [-6; -3; 1; 2]%Z.
Proof. vm_compute. reflexivity. Qed.

(** What [get_factors] does get right: the list is sorted without
    duplicates, [get_factors(0)] is empty, and every entry divides
    [num]. *)
Lemma factors_sorted_nodup num l :
  get_factors num = Ok l -> StronglySorted Z.le l /\ NoDup l.
Proof.
  unfold get_factors. destruct (py_int_math_sqrt (Z.abs num)); cbn [bind]; [| discriminate].
  intros H. injection H as <-. split.
  - apply StronglySorted_merge_sort; [intros x y z; lia | intros x y; lia].
  - rewrite (merge_sort_Permutation Z.le). apply NoDup_elements.
Qed.

Lemma get_factors_zero : get_factors 0 = Ok [].
Proof. vm_compute. reflexivity. Qed.

Lemma In_z_range a b i : In i (z_range a b) <-> (a <= i < b)%Z.
Proof.
  unfold z_range. rewrite in_map_iff. split.
  - intros [k [<- Hk]]. apply in_seq in Hk. lia.
  - intros Hi. exists (Z.to_nat (i - a)). split; [lia |]. apply in_seq. lia.
Qed.

Lemma fold_factors_spec num (xs : list Z) (acc : gset Z) x :
  x ∈ fold_left (fun acc i => if (num mod i =? 0)%Z then {[i; num / i]} ∪ acc else acc) xs acc <->
  x ∈ acc \/ exists i, In i xs /\ (num mod i = 0)%Z /\ (x = i \/ x = num / i)%Z.
Proof.
  revert acc. induction xs as [| a xs IH]; intros acc; cbn.
  - split; [tauto |]. intros [H | [i [[] _]]]. exact H.
  - rewrite IH. destruct (Z.eqb_spec (num mod a) 0) as [Ha | Ha].
    + rewrite elem_of_union, elem_of_union, !elem_of_singleton. split.
      * intros [[[-> | ->] | H] | [i [Hi Hx]]]; eauto 10.
      * intros [H | [i [[<- | Hi] [Hm Hx]]]]; [tauto | | eauto].
        destruct Hx; tauto.
    + split.
      * intros [H | [i [Hi Hx]]]; eauto.
      * intros [H | [i [[<- | Hi] [Hm Hx]]]]; [tauto | congruence | eauto].
Qed.

(** ** C9: binary and hexadecimal entries *)

(** C9 (code_bug).  [bin(num)[2:]] and [hex(num)[2:]] drop two characters
    of ["-0b101"] and ["-0x5"] for [num = -5]: the sign stays and the
    prefix is cut in half. *)
Theorem binary_hexadecimal_minus_five :
  binary_property (-5) = "b101" /\ hexadecimal_property (-5) = "x5".
Proof. split; vm_compute; reflexivity. Qed.

(** ** The classification tags *)

Definition tag_vocabulary : list string :=
  ["even"; "odd"; "prime"; "composite"; "fibonacci"; "perfect-square";
   "perfect-cube"; "power-of-two"; "armstrong"; "perfect-number"].

Ltac solve_not_in := cbn; intuition discriminate.

Ltac solve_nodup :=
  repeat (constructor; [rewrite list_elem_of_In; solve_not_in |]); constructor.

Ltac solve_tag_list :=
  repeat split;
  first
    [ solve [left; reflexivity]
    | solve [right; reflexivity]
    | solve [solve_not_in]
    | solve [solve_nodup]
    | solve [unfold tag_vocabulary; repeat constructor] ].

(** Whenever [classify_number] returns, its first tag is one of
    ["even"]/["odd"], its second one of ["prime"]/["composite"], neither
    of these four occurs again, and the list is a duplicate-free
    subsequence of the vocabulary in evaluation order
    even/odd, prime/composite, fibonacci, perfect-square, perfect-cube,
    power-of-two, armstrong, perfect-number. *)
Lemma classify_number_tags_ok (num : Z) (tags : list string) :
  classify_number num = Ok tags ->
  (exists p q rest, tags = p :: q :: rest /\
     (p = "even" \/ p = "odd") /\ (q = "prime" \/ q = "composite") /\
     ~ In "even" rest /\ ~ In "odd" rest /\ ~ In "prime" rest /\ ~ In "composite" rest) /\
  sublist tags tag_vocabulary /\ NoDup tags.
Proof.
  unfold classify_number.
  destruct (is_fibonacci num) as [fib | e]; cbn [bind]; [| discriminate].
  destruct (perfect_square_check num) as [sq | e]; cbn [bind]; [| discriminate].
  destruct (py_cube_check num) as [cube | e]; cbn [bind]; [| discriminate].
  intros H. injection H as <-. unfold append_if.
  destruct (num mod 2 =? 0)%Z, (isprime num), fib, sq, cube,
    (power_of_two_check num), (armstrong_check num), (perfect_number_check num);
    cbn [app];
    (split; [do 3 eexists; split; [reflexivity |] | ]); solve_tag_list.
Qed.

(** ** The Armstrong test *)

Lemma digits_rev_aux_nonneg b fuel m :
  (0 < b)%Z -> (0 <= m)%Z -> Forall (fun d => 0 <= d)%Z (digits_rev_aux b fuel m).
Proof.
  intros Hb. revert m. induction fuel as [| fuel IH]; intros m Hm; cbn; [constructor |].
  destruct (m <? b)%Z.
  - repeat constructor. exact Hm.
  - constructor; [apply Z.mod_pos_bound; exact Hb |].
    apply IH. apply Z.div_pos; lia.
Qed.

Lemma py_sum_nonneg xs : Forall (fun d => 0 <= d)%Z xs -> (0 <= py_sum xs)%Z.
Proof. unfold py_sum. induction 1; cbn in *; lia. Qed.

Lemma armstrong_sum_nonneg m : (0 <= m)%Z -> (0 <= armstrong_sum m)%Z.
Proof.
  intros Hm. unfold armstrong_sum, digits. apply py_sum_nonneg.
  apply List.Forall_map, List.Forall_rev.
  eapply List.Forall_impl; [| apply digits_rev_aux_nonneg; lia].
  intros d Hd. cbn. apply Z.pow_nonneg. exact Hd.
Qed.

(** The Armstrong test compares [num] itself with the digit-power sum of
    [|num|]: it holds iff [num >= 0] and [num] equals the sum of its
    decimal digits each raised to the digit count; a negative [num] never
    passes. *)
Lemma armstrong_check_iff (num : Z) :
  armstrong_check num = true <-> (0 <= num)%Z /\ num = armstrong_sum (Z.abs num).
Proof.
  unfold armstrong_check. rewrite Z.eqb_eq. split.
  - intros H. split; [| exact H].
    rewrite H. apply armstrong_sum_nonneg. lia.
  - intros [_ H]. exact H.
Qed.

(** ** The factorial entry *)

Lemma prod_upto_fact k : prod_upto k = Z.of_nat (fact k).
Proof.
  induction k as [| k IH]; [reflexivity |].
  cbn [prod_upto fact]. rewrite IH, Nat2Z.inj_mul. reflexivity.
Qed.

(** For [0 <= num < 20] the [factorial] entry is the integer [num!]; for
    [num >= 20] it is the string "Too large to calculate" (the code
    capitalises the sentinel). *)
Lemma factorial_property_value (num : Z) :
  (0 <= num)%Z ->
  factorial_property num =
    Ok (if (num <? 20)%Z then VInt (Z.of_nat (fact (Z.to_nat num)))
        else VStr "Too large to calculate").
Proof.
  intros Hn. unfold factorial_property.
  destruct (num <? 20)%Z; [| reflexivity].
  unfold py_math_factorial. destruct (Z.ltb_spec num 0); [lia |].
  cbn [bind]. rewrite prod_upto_fact. reflexivity.
Qed.

(** ** The power-of-two test *)

Lemma land_pow2_pred k : (0 <= k)%Z -> Z.land (2 ^ k) (2 ^ k - 1) = 0%Z.
Proof.
  intros Hk. replace (2 ^ k - 1)%Z with (Z.ones k) by (rewrite Z.ones_equiv; lia).
  rewrite Z.land_ones by exact Hk. apply Z.mod_same.
  pose proof (Z.pow_pos_nonneg 2 k ltac:(lia) Hk). lia.
Qed.

(** [(num & (num - 1)) == 0 and num != 0] holds exactly on the
    powers of two [2^k], [k >= 0]: on a negative [num] both operands are
    negative, so their [&] is negative and the test fails without any
    [num > 0] guard. *)
Lemma power_of_two_check_iff (num : Z) :
  power_of_two_check num = true <-> exists k : nat, num = (2 ^ Z.of_nat k)%Z.
Proof.
  unfold power_of_two_check. rewrite andb_true_iff, negb_true_iff, Z.eqb_eq, Z.eqb_neq.
  split.
  - intros [Hland Hnz].
    destruct (Z.ltb_spec num 0) as [Hneg | Hnn].
    + exfalso. assert (Hl : (Z.land num (num - 1) < 0)%Z) by (apply Z.land_neg; lia). lia.
    + assert (Hpos : (0 < num)%Z) by lia.
      exists (Z.to_nat (Z.log2 num)). rewrite Z2Nat.id by apply Z.log2_nonneg.
      destruct (Z.log2_spec num Hpos) as [Hlo Hhi].
      destruct (Z.eq_dec num (2 ^ Z.log2 num)) as [Heq | Hne]; [exact Heq | exfalso].
      assert (Hlog : Z.log2 (num - 1) = Z.log2 num).
      { apply Z.log2_unique; [apply Z.log2_nonneg | lia]. }
      assert (Hb1 : Z.testbit num (Z.log2 num) = true) by (apply Z.bit_log2; lia).
      assert (Hb2 : Z.testbit (num - 1) (Z.log2 num) = true)
        by (rewrite <- Hlog; apply Z.bit_log2;
            pose proof (Z.pow_pos_nonneg 2 (Z.log2 num) ltac:(lia) (Z.log2_nonneg num)); lia).
      assert (Hb : Z.testbit (Z.land num (num - 1)) (Z.log2 num) = true)
        by (rewrite Z.land_spec, Hb1, Hb2; reflexivity).
      rewrite Hland, Z.bits_0 in Hb. discriminate Hb.
  - intros [k ->]. split.
    + apply land_pow2_pred. lia.
    + pose proof (Z.pow_pos_nonneg 2 (Z.of_nat k) ltac:(lia) ltac:(lia)). lia.
Qed.

Lemma substring_full (s : string) : String.substring 0 (String.length s) s = s.
Proof. induction s as [| c s IH]; cbn; [reflexivity | rewrite IH; reflexivity]. Qed.

Lemma slice_after_prefix (p1 p2 : ascii) (s : string) :
  py_slice_from 2 (String p1 (String p2 s)) = s.
Proof.
  unfold py_slice_from. simpl.
  rewrite Nat.sub_0_r. apply substring_full.
Qed.

(** On [num >= 0] the two entries are the plain digit strings. *)
Lemma binary_hexadecimal_nonneg num : (0 <= num)%Z ->
  binary_property num = digits_string (digits 2 num) /\
  hexadecimal_property num = digits_string (digits 16 num).
Proof.
  intros Hn. unfold binary_property, hexadecimal_property, py_bin, py_hex, sign_prefix.
  destruct (Z.ltb_spec num 0); [lia |]. rewrite Z.abs_eq by exact Hn.
  cbn [String.append]. split; apply slice_after_prefix.
Qed.

(** ** C10: the emoji *)

Lemma get_number_properties_200_emoji o r num resp :
  get_number_properties o r num = Status200 resp -> emoji resp = emoji_of num.
Proof.
  unfold get_number_properties.
  destruct (number_properties_dict num); cbn [bind]; [| discriminate].
  destruct (get_fun_fact o r num); cbn [bind]; [| discriminate].
  destruct (classify_number num); cbn [bind]; [| discriminate].
  intros H. injection H as <-. reflexivity.
Qed.

(** C10.  The [emoji] of a 200 answer is [EMOJIS[abs(num) % 10]], one of
    the ten entries of [EMOJIS], and any two 200 answers for the same
    [num] carry the same emoji, whatever the network outcome and the
    random draw. *)
Theorem get_number_properties_emoji (o : http_outcome) (r : nat) (num : Z)
    (resp : NumberProperties) :
  get_number_properties o r num = Status200 resp ->
  emoji resp = nth (Z.to_nat (Z.abs num mod 10)) EMOJIS "" /\
  In (emoji resp) EMOJIS /\
  (forall o' r' resp', get_number_properties o' r' num = Status200 resp' ->
     emoji resp' = emoji resp).
Proof.
  intros H. rewrite (get_number_properties_200_emoji _ _ _ _ H).
  split; [reflexivity |]. split.
  - unfold emoji_of. apply nth_In. cbn [length EMOJIS].
    pose proof (Z.mod_pos_bound (Z.abs num) 10 ltac:(lia)). lia.
  - intros o' r' resp' H'. exact (get_number_properties_200_emoji _ _ _ _ H').
Qed.

(** * Further properties of the module *)

(** ** [is_fibonacci] *)

(** [check_square(x)] on [x >= 0] is exactly "x is a square". *)
Lemma check_square_spec (x : Z) :
  (0 <= x)%Z -> (check_square x = Ok true <-> exists k, x = (k * k)%Z).
Proof.
  intros Hx. unfold check_square. rewrite py_isqrt_nonneg by exact Hx. cbn [bind].
  split.
  - intros H. injection H as H. apply Z.eqb_eq in H. exists (Z.sqrt x). lia.
  - intros [k ->]. replace (k * k)%Z with (Z.abs k * Z.abs k)%Z by lia.
    rewrite Z.sqrt_square by lia. rewrite Z.eqb_refl. reflexivity.
Qed.

Lemma check_square_ok (x : Z) :
  (0 <= x)%Z -> exists b, check_square x = Ok b.
Proof. intros Hx. unfold check_square. rewrite py_isqrt_nonneg by exact Hx. cbn. eauto. Qed.

(** [is_fibonacci] only looks at [num ** 2]: [num] and [-num] get the same
    answer, so the negation of a Fibonacci number is reported as one. *)
Theorem is_fibonacci_opp (num : Z) : is_fibonacci (- num) = is_fibonacci num.
Proof. unfold is_fibonacci. replace ((- num) ^ 2)%Z with (num ^ 2)%Z by ring. reflexivity. Qed.

(** The Fibonacci sequence [0, 1, 1, 2, 3, 5, ...]: [fib_pair k] is
    [(F k, F (k + 1))]. *)
Fixpoint fib_pair (k : nat) : Z * Z :=
  match k with
  | O => (0, 1)%Z
  | S k' => let (a, b) := fib_pair k' in (b, a + b)%Z
  end.

Definition fib (k : nat) : Z := fst (fib_pair k).

(** Cassini's identity in the form [F(k+1)^2 - F(k+1) F(k) - F(k)^2 = ±1]. *)
Lemma fib_pair_cassini k :
  let (a, b) := fib_pair k in (b * b - b * a - a * a = 1 \/ b * b - b * a - a * a = -1)%Z.
Proof.
  induction k as [| k IH]; cbn [fib_pair]; [lia |].
  destruct (fib_pair k) as [a b]. nia.
Qed.

(** Every Fibonacci number [F k], and its negation, passes [is_fibonacci]:
    [5 F^2 + 4] or [5 F^2 - 4] is the square of [2 F(k+1) - F k]. *)
Theorem is_fibonacci_fib (k : nat) :
  is_fibonacci (fib k) = Ok true /\ is_fibonacci (- fib k) = Ok true /\
  ((5 * fib k ^ 2 + 4 = (2 * fib (S k) - fib k) ^ 2)%Z \/
   (5 * fib k ^ 2 - 4 = (2 * fib (S k) - fib k) ^ 2)%Z).
Proof.
  assert (Hsq : ((5 * fib k ^ 2 + 4 = (2 * fib (S k) - fib k) ^ 2)%Z \/
                 (5 * fib k ^ 2 - 4 = (2 * fib (S k) - fib k) ^ 2)%Z)).
  { pose proof (fib_pair_cassini k) as HQ. unfold fib. cbn [fib_pair].
    destruct (fib_pair k) as [a b]. cbn [fst]. destruct HQ; [left | right]; nia. }
  assert (Hopp : is_fibonacci (- fib k) = is_fibonacci (fib k)).
  { unfold is_fibonacci. replace ((- fib k) ^ 2)%Z with (fib k ^ 2)%Z by ring. reflexivity. }
  rewrite Hopp.
  enough (H : is_fibonacci (fib k) = Ok true) by (split; [exact H | split; [exact H | exact Hsq]]).
  clear Hsq Hopp.
  pose proof (fib_pair_cassini k) as HQ. unfold fib.
  destruct (fib_pair k) as [a b]. cbn [fst].
  unfold is_fibonacci.
  destruct HQ as [HQ | HQ].
  - assert (Hsq : check_square (5 * a ^ 2 + 4) = Ok true).
    { apply check_square_spec; [nia |]. exists (2 * b - a)%Z. nia. }
    rewrite Hsq. reflexivity.
  - destruct (check_square_ok (5 * a ^ 2 + 4)) as [b1 Hb1]; [nia |].
    rewrite Hb1. cbn [bind]. destruct b1; [reflexivity |].
    apply check_square_spec; [nia |]. exists (2 * b - a)%Z. nia.
Qed.

(** ** Where the route answers 200 and where it answers 500 *)

Lemma py_float_of_int_ok m :
  (0 <= m < float_overflow_bound)%Z ->
  exists x, py_float_of_int m = Ok x /\
    match x with
    | S754_zero s => s = false
    | S754_finite s mx ex => s = false /\ (Zpos mx <= 2 ^ 53)%Z /\ (-1074 <= ex <= 971)%Z
    | _ => False
    end.
Proof.
  intros Hm. unfold py_float_of_int.
  pose proof (binary_normalize_finite m Hm) as Hf.
  destruct (binary_normalize 53 1024 m 0 false) as [s | s | | s mx ex];
    try contradiction; eexists; (split; [reflexivity | exact Hf]).
Qed.

Lemma py_float_of_int_overflow m :
  (float_overflow_bound <= m)%Z ->
  py_float_of_int m = Raise (PyExc OverflowError "int too large to convert to float").
Proof. intros Hm. unfold py_float_of_int. rewrite binary_normalize_overflow by exact Hm. reflexivity. Qed.

(** [int(math.sqrt(m))] returns for every [m] from 0 up to the float
    range. *)
Lemma py_int_math_sqrt_ok m :
  (0 <= m < float_overflow_bound)%Z -> exists r, py_int_math_sqrt m = Ok r.
Proof.
  intros Hm. unfold py_int_math_sqrt.
  destruct (py_float_of_int_ok m Hm) as [x [-> Hx]]. cbn [bind].
  destruct x as [s | s | | s mx ex]; try contradiction.
  - subst s. cbn. eauto.
  - destruct Hx as (-> & Hmx & Hex). cbn [py_math_sqrt].
    pose proof (SFsqrt_finite mx ex Hmx Hex) as Hs.
    destruct (SFsqrt 53 1024 (S754_finite false mx ex)) as [s' | s' | | s' m' e'];
      try contradiction; cbn; eauto.
Qed.

Lemma py_cube_check_ok num :
  (0 <= num < float_overflow_bound)%Z -> exists b, py_cube_check num = Ok b.
Proof.
  intros Hn. unfold py_cube_check.
  destruct (py_float_of_int_ok num Hn) as [x [-> _]]. cbn [bind].
  destruct (Z.ltb_spec num 0); [lia |]. eauto.
Qed.

Lemma py_cube_check_overflow num :
  (float_overflow_bound <= num)%Z ->
  py_cube_check num = Raise (PyExc OverflowError "int too large to convert to float").
Proof. intros Hn. unfold py_cube_check. rewrite py_float_of_int_overflow by exact Hn. reflexivity. Qed.

Lemma py_cube_check_range num b :
  py_cube_check num = Ok b -> (0 <= num < float_overflow_bound)%Z.
Proof.
  destruct (Z.leb_spec float_overflow_bound num) as [Hb | Hb].
  - rewrite py_cube_check_overflow by exact Hb. discriminate.
  - unfold py_cube_check. destruct (py_float_of_int num); cbn [bind]; [| discriminate].
    destruct (Z.ltb_spec num 0); [discriminate |]. lia.
Qed.

Lemma get_factors_ok num :
  (Z.abs num < float_overflow_bound)%Z -> exists l, get_factors num = Ok l.
Proof.
  intros Hn. unfold get_factors.
  destruct (py_int_math_sqrt_ok (Z.abs num)) as [r ->]; [lia |]. cbn. eauto.
Qed.

Lemma factorial_property_ok num :
  (0 <= num)%Z -> exists v, factorial_property num = Ok v.
Proof.
  intros Hn. unfold factorial_property.
  destruct (num <? 20)%Z; [| eauto].
  unfold py_math_factorial. destruct (Z.ltb_spec num 0); [lia |]. cbn. eauto.
Qed.

Lemma number_properties_dict_ok num :
  (0 <= num < float_overflow_bound)%Z -> exists d, number_properties_dict num = Ok d.
Proof.
  intros Hn. unfold number_properties_dict.
  destruct (is_fibonacci_ok num) as [fib Hf]. rewrite Hf. cbn [bind].
  rewrite perfect_square_check_nonneg by lia. cbn [bind].
  destruct (py_cube_check_ok num Hn) as [c Hc]. rewrite Hc. cbn [bind].
  destruct (get_factors_ok num) as [l Hl]; [rewrite Z.abs_eq; lia |]. rewrite Hl. cbn [bind].
  destruct (factorial_property_ok num) as [v Hv]; [lia |]. rewrite Hv. cbn [bind]. eauto.
Qed.

Lemma classify_number_ok num :
  (0 <= num < float_overflow_bound)%Z -> exists tags, classify_number num = Ok tags.
Proof.
  intros Hn. unfold classify_number.
  destruct (is_fibonacci_ok num) as [fib Hf]. rewrite Hf. cbn [bind].
  rewrite perfect_square_check_nonneg by lia. cbn [bind].
  destruct (py_cube_check_ok num Hn) as [c Hc]. rewrite Hc. cbn [bind]. eauto.
Qed.

Lemma get_local_fun_fact_total (r : nat) (num : Z) :
  (0 <= num < float_overflow_bound)%Z -> exists fact, get_local_fun_fact r num = Ok fact.
Proof.
  intros Hn. unfold get_local_fun_fact.
  destruct (is_fibonacci_ok num) as [fib Hf]. rewrite Hf. cbn [bind].
  assert (Hfact : exists s, (if (num <? 20)%Z
                              then let* f := py_math_factorial num in Ok (py_str f)
                              else Ok "too large to calculate"%string) = Ok s).
  { destruct (num <? 20)%Z; [| eauto].
    unfold py_math_factorial. destruct (Z.ltb_spec num 0); [lia |]. cbn. eauto. }
  destruct Hfact as [s Hs]. rewrite Hs. cbn [bind].
  rewrite perfect_square_check_nonneg by lia. cbn [bind].
  destruct (py_cube_check_ok num Hn) as [c Hc]. rewrite Hc. cbn [bind].
  unfold py_random_choice. eauto.
Qed.

(** The local fallback never raises on [0 <= num] below the float range:
    it returns one of its ten facts. *)
Theorem get_local_fun_fact_ok (r : nat) (num : Z) :
  (0 <= num < float_overflow_bound)%Z -> exists fact, get_local_fun_fact r num = Ok fact.
Proof. apply get_local_fun_fact_total. Qed.

Lemma get_fun_fact_ok o r num :
  (0 <= num < float_overflow_bound)%Z -> exists fact, get_fun_fact o r num = Ok fact.
Proof.
  intros Hn. unfold get_fun_fact.
  destruct (fetch_fact_text o); [eauto |]. apply get_local_fun_fact_total. exact Hn.
Qed.

(** [GET /number/{num}] answers 200 for every [num] from 0 up to the float
    range, whatever the network outcome and the random draw; the body
    carries [number = num]. *)
Theorem get_number_properties_nonneg_200 (o : http_outcome) (r : nat) (num : Z) :
  (0 <= num < float_overflow_bound)%Z ->
  exists resp, get_number_properties o r num = Status200 resp /\ number resp = num.
Proof.
  intros Hn. unfold get_number_properties.
  destruct (number_properties_dict_ok num Hn) as [d Hd]. rewrite Hd. cbn [bind].
  destruct (get_fun_fact_ok o r num Hn) as [ff Hff]. rewrite Hff. cbn [bind].
  destruct (classify_number_ok num Hn) as [tags Ht]. rewrite Ht. cbn [bind].
  eexists. split; reflexivity.
Qed.

Lemma get_number_properties_overflow o r num :
  (float_overflow_bound <= num)%Z ->
  get_number_properties o r num = Status500 (internal_error "int too large to convert to float").
Proof.
  intros Hn. unfold get_number_properties, number_properties_dict.
  destruct (is_fibonacci_ok num) as [fib Hf]. rewrite Hf. cbn [bind].
  rewrite perfect_square_check_nonneg by (unfold float_overflow_bound in Hn; lia). cbn [bind].
  rewrite py_cube_check_overflow by exact Hn. reflexivity.
Qed.

(** From the float range on, [num ** (1/3)] raises [OverflowError] and the
    route answers 500. *)
Theorem get_number_properties_huge_500 (o : http_outcome) (r : nat) (num : Z) :
  (float_overflow_bound <= num)%Z ->
  get_number_properties o r num = Status500 (internal_error "int too large to convert to float").
Proof. apply get_number_properties_overflow. Qed.

(** ** The body of a 200 answer *)

Lemma get_number_properties_200_inv o r num resp :
  get_number_properties o r num = Status200 resp ->
  number resp = num /\
  number_properties_dict num = Ok (properties resp) /\
  get_fun_fact o r num = Ok (fun_fact resp) /\
  classify_number num = Ok (classification resp).
Proof.
  unfold get_number_properties.
  destruct (number_properties_dict num); cbn [bind]; [| discriminate].
  destruct (get_fun_fact o r num); cbn [bind]; [| discriminate].
  destruct (classify_number num); cbn [bind]; [| discriminate].
  intros H. injection H as <-. cbn. auto.
Qed.

(** Each boolean property and its classification tag. *)
Definition property_tags : list (string * string) :=
  [("is_even", "even"); ("is_prime", "prime"); ("is_fibonacci", "fibonacci");
   ("is_perfect_square", "perfect-square"); ("is_perfect_cube", "perfect-cube");
   ("is_power_of_two", "power-of-two"); ("is_armstrong", "armstrong");
   ("is_perfect_number", "perfect-number")].

(** In a 200 body the boolean properties and the classification agree:
    each [is_X] entry is [True] exactly when its tag is in
    [classification]. *)
Theorem get_number_properties_tags_agree (o : http_outcome) (r : nat) (num : Z)
    (resp : NumberProperties) :
  get_number_properties o r num = Status200 resp ->
  Forall (fun kt => dict_get (fst kt) (properties resp) =
                    Some (VBool (existsb (String.eqb (snd kt)) (classification resp))))
    property_tags.
Proof.
  intros H. destruct (get_number_properties_200_inv _ _ _ _ H) as (_ & Hd & _ & Ht).
  revert Hd Ht. unfold number_properties_dict, classify_number.
  destruct (is_fibonacci num) as [fib |]; cbn [bind]; [| discriminate].
  destruct (perfect_square_check num) as [sq |]; cbn [bind]; [| discriminate].
  destruct (py_cube_check num) as [cube |]; cbn [bind]; [| discriminate].
  destruct (get_factors num); cbn [bind]; [| discriminate].
  destruct (factorial_property num); cbn [bind]; [| discriminate].
  intros Hd Ht. injection Hd as <-. injection Ht as <-. unfold append_if.
  destruct (num mod 2 =? 0)%Z, (isprime num), fib, sq, cube,
    (power_of_two_check num), (armstrong_check num), (perfect_number_check num);
    cbn; repeat constructor.
Qed.

(** ** The classification claims over all integers *)

Lemma classify_number_neg num : (num < 0)%Z ->
  classify_number num = Raise (PyExc ValueError "isqrt() argument must be nonnegative").
Proof.
  intros Hneg. unfold classify_number.
  destruct (is_fibonacci_ok num) as [b Hb]. rewrite Hb. cbn [bind].
  unfold perfect_square_check. rewrite py_isqrt_neg by exact Hneg. reflexivity.
Qed.

Lemma classify_number_overflow num : (float_overflow_bound <= num)%Z ->
  classify_number num = Raise (PyExc OverflowError "int too large to convert to float").
Proof.
  intros Hn. unfold classify_number.
  destruct (is_fibonacci_ok num) as [b Hb]. rewrite Hb. cbn [bind].
  rewrite perfect_square_check_nonneg by (unfold float_overflow_bound in Hn; lia). cbn [bind].
  rewrite py_cube_check_overflow by exact Hn. reflexivity.
Qed.

Lemma get_number_properties_neg o r num : (num < 0)%Z ->
  get_number_properties o r num = Status500 (internal_error "isqrt() argument must be nonnegative").
Proof.
  intros Hneg. unfold get_number_properties, number_properties_dict.
  destruct (is_fibonacci_ok num) as [b Hb]. rewrite Hb. cbn.
  unfold perfect_square_check. rewrite py_isqrt_neg by exact Hneg. reflexivity.
Qed.

Lemma get_number_properties_in_range o r num :
  (0 <= num < float_overflow_bound)%Z ->
  exists d ff tags,
    number_properties_dict num = Ok d /\ get_fun_fact o r num = Ok ff /\
    classify_number num = Ok tags /\
    get_number_properties o r num =
      Status200 {| number := num; properties := d; fun_fact := ff;
                   emoji := emoji_of num; classification := tags |}.
Proof.
  intros Hn.
  destruct (number_properties_dict_ok num Hn) as [d Hd].
  destruct (get_fun_fact_ok o r num Hn) as [ff Hff].
  destruct (classify_number_ok num Hn) as [tags Ht].
  exists d, ff, tags. do 3 (split; [assumption |]).
  unfold get_number_properties. rewrite Hd, Hff, Ht. reflexivity.
Qed.

Lemma In_existsb_eqb (x : string) (l : list string) :
  In x l <-> existsb (String.eqb x) l = true.
Proof.
  rewrite existsb_exists. split.
  - intros H. exists x. rewrite String.eqb_refl. auto.
  - intros [y [Hy Heq]]. apply String.eqb_eq in Heq. subst y. exact Hy.
Qed.

Lemma classify_number_flags num tags :
  classify_number num = Ok tags ->
  existsb (String.eqb "power-of-two") tags = power_of_two_check num /\
  existsb (String.eqb "armstrong") tags = armstrong_check num.
Proof.
  unfold classify_number.
  destruct (is_fibonacci num) as [fib |]; cbn [bind]; [| discriminate].
  destruct (perfect_square_check num) as [sq |]; cbn [bind]; [| discriminate].
  destruct (py_cube_check num) as [cube |]; cbn [bind]; [| discriminate].
  intros H. injection H as <-. unfold append_if.
  destruct (num mod 2 =? 0)%Z, (isprime num), fib, sq, cube,
    (power_of_two_check num), (armstrong_check num), (perfect_number_check num);
    split; reflexivity.
Qed.

Lemma number_properties_dict_entries num d :
  number_properties_dict num = Ok d ->
  dict_get "is_power_of_two" d = Some (VBool (power_of_two_check num)) /\
  dict_get "is_armstrong" d = Some (VBool (armstrong_check num)) /\
  exists v, factorial_property num = Ok v /\ dict_get "factorial" d = Some v.
Proof.
  unfold number_properties_dict.
  destruct (is_fibonacci num); cbn [bind]; [| discriminate].
  destruct (perfect_square_check num); cbn [bind]; [| discriminate].
  destruct (py_cube_check num); cbn [bind]; [| discriminate].
  destruct (get_factors num); cbn [bind]; [| discriminate].
  destruct (factorial_property num) as [v |]; cbn [bind]; [| discriminate].
  intros Hd. injection Hd as <-. split; [reflexivity |]. split; [reflexivity |].
  exists v. split; reflexivity.
Qed.

(** C5 (code_bug).  [classify_number] returns a tag list only for
    [0 <= num < 2^1024 - 2^970].  On every negative [num]
    [math.isqrt(num)] raises [ValueError] before any tag is returned, and
    from [2^1024 - 2^970] on [num ** (1/3)] raises [OverflowError].  In
    between, the first tag is one of ["even"]/["odd"], the second one of
    ["prime"]/["composite"], neither of these four occurs again, and the
    list is a duplicate-free subsequence of the vocabulary in evaluation
    order even/odd, prime/composite, fibonacci, perfect-square,
    perfect-cube, power-of-two, armstrong, perfect-number. *)
Theorem classify_number_all_integers (num : Z) :
  ((num < 0)%Z ->
     classify_number num = Raise (PyExc ValueError "isqrt() argument must be nonnegative")) /\
  ((float_overflow_bound <= num)%Z ->
     classify_number num = Raise (PyExc OverflowError "int too large to convert to float")) /\
  ((0 <= num < float_overflow_bound)%Z ->
     exists tags, classify_number num = Ok tags /\
       (exists p q rest, tags = p :: q :: rest /\
          (p = "even" \/ p = "odd") /\ (q = "prime" \/ q = "composite") /\
          ~ In "even" rest /\ ~ In "odd" rest /\ ~ In "prime" rest /\ ~ In "composite" rest) /\
       sublist tags tag_vocabulary /\ NoDup tags).
Proof.
  split; [apply classify_number_neg |].
  split; [apply classify_number_overflow |].
  intros Hn. destruct (classify_number_ok num Hn) as [tags Ht].
  exists tags. split; [exact Ht |]. exact (classify_number_tags_ok num tags Ht).
Qed.

(** C6 (code_bug).  No negative [num] is ever classified as Armstrong:
    the test compares [num] itself, not [|num|], so it is [False] on every
    negative [num]; and before it runs, [math.isqrt(num)] raises, so
    [classify_number] raises and [GET /number/{num}] answers 500 (for
    [-153], although [153 = 1^3 + 5^3 + 3^3]).  For
    [0 <= num < 2^1024 - 2^970] the route answers 200, and ["armstrong"]
    is in [classification], and [is_armstrong] is [True], exactly when
    [num] equals the sum of its decimal digits each raised to the digit
    count. *)
Theorem armstrong_classification (o : http_outcome) (r : nat) (num : Z) :
  ((num < 0)%Z ->
     armstrong_check num = false /\
     classify_number num = Raise (PyExc ValueError "isqrt() argument must be nonnegative") /\
     get_number_properties o r num =
       Status500 (internal_error "isqrt() argument must be nonnegative")) /\
  ((0 <= num < float_overflow_bound)%Z ->
     exists resp, get_number_properties o r num = Status200 resp /\
       (In "armstrong" (classification resp) <-> num = armstrong_sum (Z.abs num)) /\
       dict_get "is_armstrong" (properties resp) = Some (VBool (armstrong_check num)) /\
       (armstrong_check num = true <-> num = armstrong_sum (Z.abs num))).
Proof.
  split.
  - intros Hneg. split; [| split; [apply classify_number_neg; exact Hneg |
                                   apply get_number_properties_neg; exact Hneg]].
    destruct (armstrong_check num) eqn:Ha; [| reflexivity].
    apply armstrong_check_iff in Ha. lia.
  - intros Hn.
    destruct (get_number_properties_in_range o r num Hn) as (d & ff & tags & Hd & _ & Ht & ->).
    assert (Hiff : armstrong_check num = true <-> num = armstrong_sum (Z.abs num)).
    { rewrite armstrong_check_iff. split; [tauto | intros H; split; [lia | exact H]]. }
    eexists. split; [reflexivity |]. cbn [classification properties].
    split; [| split; [apply (number_properties_dict_entries num d Hd) | exact Hiff]].
    rewrite In_existsb_eqb, (proj2 (classify_number_flags num tags Ht)). exact Hiff.
Qed.

(** C7 (code_bug).  For [0 <= num < 2^1024 - 2^970] the route answers 200
    and the [factorial] entry is the integer [num!] for [num < 20] and the
    string "Too large to calculate" otherwise; from [2^1024 - 2^970] on no
    [factorial] entry is produced: [num ** (1/3)] in the
    [is_perfect_cube] entry raises [OverflowError] first and the route
    answers 500. *)
Theorem get_number_properties_factorial (o : http_outcome) (r : nat) (num : Z) :
  (0 <= num)%Z ->
  ((num < float_overflow_bound)%Z ->
     exists resp, get_number_properties o r num = Status200 resp /\
       dict_get "factorial" (properties resp) =
         Some (if (num <? 20)%Z then VInt (Z.of_nat (fact (Z.to_nat num)))
               else VStr "Too large to calculate")) /\
  ((float_overflow_bound <= num)%Z ->
     get_number_properties o r num = Status500 (internal_error "int too large to convert to float")).
Proof.
  intros Hn. split.
  - intros Hb.
    destruct (get_number_properties_in_range o r num (conj Hn Hb)) as (d & ff & tags & Hd & _ & _ & ->).
    eexists. split; [reflexivity |]. cbn [properties].
    destruct (number_properties_dict_entries num d Hd) as (_ & _ & v & Hv & ->).
    rewrite factorial_property_value in Hv by exact Hn. injection Hv as <-. reflexivity.
  - apply get_number_properties_overflow.
Qed.

(** C8 (code_bug).  The bit test [(num & (num - 1)) == 0 and num != 0]
    holds exactly on the powers of two [2^k], [k >= 0]; but
    [GET /number/{num}] never classifies a negative [num]: it answers 500
    from [math.isqrt(num)] (so [GET /number/-8] gets no classification at
    all).  For [0 <= num < 2^1024 - 2^970] it answers 200, and
    ["power-of-two"] is in [classification] exactly when [num] is a power
    of two ([8] is tagged). *)
Theorem get_number_properties_power_of_two (o : http_outcome) (r : nat) (num : Z) :
  (power_of_two_check num = true <-> exists k : nat, num = (2 ^ Z.of_nat k)%Z) /\
  ((num < 0)%Z ->
     get_number_properties o r num =
       Status500 (internal_error "isqrt() argument must be nonnegative")) /\
  ((0 <= num < float_overflow_bound)%Z ->
     exists resp, get_number_properties o r num = Status200 resp /\
       (In "power-of-two" (classification resp) <-> exists k : nat, num = (2 ^ Z.of_nat k)%Z) /\
       dict_get "is_power_of_two" (properties resp) = Some (VBool (power_of_two_check num))).
Proof.
  split; [apply power_of_two_check_iff |].
  split; [apply get_number_properties_neg |].
  intros Hn.
  destruct (get_number_properties_in_range o r num Hn) as (d & ff & tags & Hd & _ & Ht & ->).
  eexists. split; [reflexivity |]. cbn [classification properties].
  split; [| apply (number_properties_dict_entries num d Hd)].
  rewrite In_existsb_eqb, (proj1 (classify_number_flags num tags Ht)).
  apply power_of_two_check_iff.
Qed.

(** ** Digit strings: [str], [bin], [hex] and the digit sum *)

(** Value of a least-significant-first digit list. *)
Fixpoint value_lsb (b : Z) (ds : list Z) : Z :=
  match ds with
  | [] => 0
  | d :: ds' => d + b * value_lsb b ds'
  end.

Lemma digits_rev_aux_value b fuel m :
  (2 <= b)%Z -> (0 <= m < b ^ Z.of_nat fuel)%Z ->
  value_lsb b (digits_rev_aux b fuel m) = m /\
  Forall (fun d => 0 <= d < b)%Z (digits_rev_aux b fuel m).
Proof.
  intros Hb. revert m. induction fuel as [| fuel IH]; intros m Hm.
  - cbn in Hm. assert (m = 0)%Z as -> by lia. split; [reflexivity | constructor].
  - cbn [digits_rev_aux]. destruct (Z.ltb_spec m b).
    + cbn. split; [lia | repeat constructor; lia].
    + assert (Hq : (0 <= m / b < b ^ Z.of_nat fuel)%Z).
      { split; [apply Z.div_pos; lia |].
        apply Z.div_lt_upper_bound; [lia |].
        rewrite Nat2Z.inj_succ, Z.pow_succ_r in Hm by lia. lia. }
      destruct (IH (m / b)%Z Hq) as [Hv Hf]. cbn [value_lsb]. rewrite Hv.
      split.
      * pose proof (Z.div_mod m b ltac:(lia)). lia.
      * constructor; [apply Z.mod_pos_bound; lia | exact Hf].
Qed.

Lemma digits_fuel_bound b m :
  (2 <= b)%Z -> (0 <= m)%Z -> (m < b ^ Z.of_nat (S (Z.to_nat (Z.log2 m))))%Z.
Proof.
  intros Hb Hm. rewrite Nat2Z.inj_succ, Z2Nat.id by apply Z.log2_nonneg.
  apply Z.lt_le_trans with (2 ^ Z.succ (Z.log2 m))%Z.
  - destruct (Z.eq_dec m 0) as [-> | Hne]; [reflexivity |].
    apply Z.log2_spec. lia.
  - apply Z.pow_le_mono_l. split; [lia | exact Hb].
Qed.

Lemma digits_rev_aux_nonempty b fuel m : digits_rev_aux b (S fuel) m <> [].
Proof. cbn. destruct (m <? b)%Z; discriminate. Qed.

(** Reading a most-significant-first digit list back (Horner). *)
Definition horner (b : Z) (ds : list Z) : Z :=
  fold_left (fun acc d => acc * b + d)%Z ds 0%Z.

Lemma fold_horner_rev b l acc :
  fold_left (fun acc d => acc * b + d)%Z (rev l) acc =
  (acc * b ^ Z.of_nat (length l) + value_lsb b l)%Z.
Proof.
  revert acc. induction l as [| d l IH]; intros acc; cbn [rev length value_lsb].
  - cbn. lia.
  - rewrite fold_left_app, IH. cbn [fold_left].
    rewrite Nat2Z.inj_succ, Z.pow_succ_r by lia. ring.
Qed.

(** [digits b m] spells [m]: its digits lie in [[0, b)] and read back to [m]. *)
Lemma digits_spec b m :
  (2 <= b)%Z -> (0 <= m)%Z ->
  horner b (digits b m) = m /\ Forall (fun d => 0 <= d < b)%Z (digits b m) /\ digits b m <> [].
Proof.
  intros Hb Hm. unfold digits, horner.
  destruct (digits_rev_aux_value b (S (Z.to_nat (Z.log2 m))) m Hb)
    as [Hv Hf]; [split; [exact Hm | apply digits_fuel_bound; lia] |].
  split; [| split].
  - rewrite fold_horner_rev, Hv. lia.
  - apply List.Forall_rev. exact Hf.
  - intros Hnil. apply (f_equal (@rev Z)) in Hnil. rewrite rev_involutive in Hnil.
    exact (digits_rev_aux_nonempty _ _ _ Hnil).
Qed.

(** A reader for lowercase digit strings in base [b <= 16], standing for
    [int(s, b)] on such strings ([None] for an empty string or a character
    that is not a digit below [b]). *)
Definition char_value (c : ascii) : option Z :=
  let k := nat_of_ascii c in
  if ((48 <=? k) && (k <=? 57))%nat then Some (Z.of_nat k - 48)%Z
  else if ((97 <=? k) && (k <=? 102))%nat then Some (Z.of_nat k - 87)%Z
  else None.

Fixpoint read_digits_from (b acc : Z) (cs : list ascii) : option Z :=
  match cs with
  | [] => Some acc
  | c :: cs' =>
      match char_value c with
      | Some d => if (d <? b)%Z then read_digits_from b (acc * b + d)%Z cs' else None
      | None => None
      end
  end.

Definition read_digits (b : Z) (s : string) : option Z :=
  match list_ascii_of_string s with
  | [] => None
  | cs => read_digits_from b 0 cs
  end.

Lemma char_value_digit_char d : (0 <= d < 16)%Z -> char_value (digit_char d) = Some d.
Proof.
  intros Hd.
  assert (d = 0 \/ d = 1 \/ d = 2 \/ d = 3 \/ d = 4 \/ d = 5 \/ d = 6 \/ d = 7 \/
          d = 8 \/ d = 9 \/ d = 10 \/ d = 11 \/ d = 12 \/ d = 13 \/ d = 14 \/ d = 15)%Z
    as Hcases by lia.
  repeat destruct Hcases as [-> | Hcases]; try reflexivity.
  subst. reflexivity.
Qed.

Lemma read_digits_from_chars b acc ds :
  (b <= 16)%Z -> Forall (fun d => 0 <= d < b)%Z ds ->
  read_digits_from b acc (map digit_char ds) =
  Some (fold_left (fun acc d => acc * b + d)%Z ds acc).
Proof.
  intros Hb Hds. revert acc. induction Hds as [| d ds Hd Hds IH]; intros acc; [reflexivity |].
  cbn [map read_digits_from]. rewrite char_value_digit_char by lia.
  destruct (Z.ltb_spec d b); [| lia]. apply IH.
Qed.

(** Digit strings of [digits b m] read back to [m]. *)
Lemma read_digits_string b m :
  (2 <= b <= 16)%Z -> (0 <= m)%Z -> read_digits b (digits_string (digits b m)) = Some m.
Proof.
  intros Hb Hm. destruct (digits_spec b m ltac:(lia) Hm) as (Hv & Hf & Hne).
  assert (Hr : read_digits_from b 0 (map digit_char (digits b m)) = Some m).
  { rewrite read_digits_from_chars by first [lia | exact Hf].
    unfold horner in Hv. rewrite Hv. reflexivity. }
  unfold read_digits, digits_string. rewrite list_ascii_of_string_of_list_ascii.
  revert Hr. destruct (digits b m) as [| d ds]; [congruence |].
  intros Hr. exact Hr.
Qed.

(** For [num >= 0] the [binary] and [hexadecimal] entries read back to
    [num] in base 2 and 16. *)
Theorem binary_hexadecimal_roundtrip (num : Z) :
  (0 <= num)%Z ->
  read_digits 2 (binary_property num) = Some num /\
  read_digits 16 (hexadecimal_property num) = Some num.
Proof.
  intros Hn. destruct (binary_hexadecimal_nonneg num Hn) as [-> ->].
  split; apply read_digits_string; lia.
Qed.


(** The [digit_sum] entry [sum(int(d) for d in str(abs(num)))]. *)
Lemma py_sum_app l1 l2 : py_sum (l1 ++ l2) = (py_sum l1 + py_sum l2)%Z.
Proof. unfold py_sum. induction l1 as [| x l1 IH]; cbn; lia. Qed.

Lemma py_sum_rev l : py_sum (rev l) = py_sum l.
Proof.
  induction l as [| x l IH]; [reflexivity |].
  cbn [rev]. rewrite py_sum_app, IH. unfold py_sum. cbn. lia.
Qed.

Lemma value_lsb_minus_sum l : exists k, (value_lsb 10 l - py_sum l = 9 * k)%Z.
Proof.
  induction l as [| d l [k IH]]; [exists 0%Z; reflexivity |].
  exists (value_lsb 10 l + k)%Z. unfold py_sum in *. cbn [value_lsb fold_right]. lia.
Qed.

(** In a 200 body, [digit_sum] is a non-negative number congruent to
    [abs(num)] modulo 9. *)
Theorem get_number_properties_digit_sum (o : http_outcome) (r : nat) (num : Z)
    (resp : NumberProperties) :
  get_number_properties o r num = Status200 resp ->
  exists s, dict_get "digit_sum" (properties resp) = Some (VInt s) /\
    (0 <= s)%Z /\ (s mod 9 = Z.abs num mod 9)%Z.
Proof.
  intros H. destruct (get_number_properties_200_inv _ _ _ _ H) as (_ & Hd & _).
  revert Hd. unfold number_properties_dict.
  destruct (is_fibonacci num); cbn [bind]; [| discriminate].
  destruct (perfect_square_check num); cbn [bind]; [| discriminate].
  destruct (py_cube_check num); cbn [bind]; [| discriminate].
  destruct (get_factors num); cbn [bind]; [| discriminate].
  destruct (factorial_property num); cbn [bind]; [| discriminate].
  intros Hd. injection Hd as <-. cbn.
  eexists. split; [reflexivity |].
  assert (Hm : (0 <= Z.abs num)%Z) by lia.
  pose proof (digits_rev_aux_value 10 (S (Z.to_nat (Z.log2 (Z.abs num)))) (Z.abs num)
                ltac:(lia) (conj Hm (digits_fuel_bound 10 _ ltac:(lia) Hm))) as [Hv Hf].
  unfold digits. rewrite py_sum_rev.
  destruct (value_lsb_minus_sum (digits_rev_aux 10 (S (Z.to_nat (Z.log2 (Z.abs num)))) (Z.abs num)))
    as [k Hk].
  split.
  - apply py_sum_nonneg. eapply List.Forall_impl; [| exact Hf]. cbn. lia.
  - rewrite Hv in Hk.
    set (L := digits_rev_aux 10 (S (Z.to_nat (Z.log2 (Z.abs num)))) (Z.abs num)) in *.
    transitivity ((py_sum L + k * 9) mod 9)%Z.
    + symmetry. apply Z.mod_add. lia.
    + f_equal. lia.
Qed.


(** ** [get_factors] *)

(** [get_factors] returns a sorted list without duplicates. *)
Theorem get_factors_sorted_nodup (num : Z) (l : list Z) :
  get_factors num = Ok l -> StronglySorted Z.le l /\ NoDup l.
Proof. apply factors_sorted_nodup. Qed.

(** Every entry of [get_factors(num)] divides [num], and for [num > 0]
    every entry is positive: [num // i] is only taken for a divisor [i]
    of [num] with [1 <= i].  This holds whatever scan bound
    [int(math.sqrt(abs(num)))] gives. *)
Theorem get_factors_divisors (num : Z) (l : list Z) :
  get_factors num = Ok l ->
  forall d, In d l -> (d | num)%Z /\ ((0 < num)%Z -> (0 < d)%Z).
Proof.
  unfold get_factors. destruct (py_int_math_sqrt (Z.abs num)) as [s |]; cbn [bind]; [| discriminate].
  intros H. injection H as <-. intros d Hd.
  rewrite <- list_elem_of_In, (merge_sort_Permutation Z.le), elem_of_elements,
    fold_factors_spec in Hd.
  destruct Hd as [Hd | [i [Hi [Hm Hx]]]]; [set_solver |].
  apply In_z_range in Hi.
  assert (Hdiv : (num = i * (num / i))%Z) by (apply Z.div_exact; lia).
  destruct Hx as [-> | ->].
  - split; [exists (num / i)%Z; lia | lia].
  - split; [exists i; lia |]. intros Hpos.
    destruct (Z.ltb_spec 0 (num / i)); [lia | nia].
Qed.

Lemma number_properties_dict_inv num d :
  number_properties_dict num = Ok d ->
  (0 <= num < float_overflow_bound)%Z /\
  exists fs, get_factors num = Ok fs /\
    dict_get "is_even" d = Some (VBool (num mod 2 =? 0)%Z) /\
    dict_get "is_prime" d = Some (VBool (isprime num)) /\
    dict_get "is_perfect_number" d = Some (VBool (perfect_number_check num)) /\
    dict_get "absolute_value" d = Some (VInt (Z.abs num)) /\
    dict_get "sign" d = Some (VStr (if (0 <? num)%Z then "positive"
                                    else if (num <? 0)%Z then "negative" else "zero")) /\
    dict_get "factors" d = Some (VList fs).
Proof.
  unfold number_properties_dict.
  destruct (is_fibonacci num); cbn [bind]; [| discriminate].
  destruct (perfect_square_check num); cbn [bind]; [| discriminate].
  destruct (py_cube_check num) eqn:Hc; cbn [bind]; [| discriminate].
  destruct (get_factors num) as [fs |] eqn:Hf; cbn [bind]; [| discriminate].
  destruct (factorial_property num); cbn [bind]; [| discriminate].
  intros Hd. injection Hd as <-. split.
  - exact (py_cube_check_range num _ Hc).
  - exists fs. repeat split; reflexivity.
Qed.

(** ** The body of a 200 answer, continued *)

(** A 200 body never reports a negative number: [absolute_value] is
    [num] itself and [sign] is never ["negative"]. *)
Theorem get_number_properties_never_negative (o : http_outcome) (r : nat) (num : Z)
    (resp : NumberProperties) :
  get_number_properties o r num = Status200 resp ->
  dict_get "absolute_value" (properties resp) = Some (VInt num) /\
  dict_get "sign" (properties resp) <> Some (VStr "negative").
Proof.
  intros H. destruct (get_number_properties_200_inv _ _ _ _ H) as (_ & Hd & _).
  destruct (number_properties_dict_inv _ _ Hd) as (Hn & fs & _ & _ & _ & _ & Ha & Hs & _).
  rewrite Ha, Hs, Z.abs_eq by lia. split; [reflexivity |].
  destruct (Z.ltb_spec 0 num); [discriminate |].
  destruct (Z.ltb_spec num 0); [lia | discriminate].
Qed.

(** ** The local fallback fact *)

Lemma prefix_append (s t : string) : String.prefix s (s ++ t) = true.
Proof.
  induction s as [| c s IH]; [destruct t; reflexivity |].
  change (String c s ++ t) with (String c (s ++ t)). cbn [String.prefix].
  destruct (ascii_dec c c) as [_ | Hc]; [exact IH | contradiction].
Qed.

Lemma prefix_append_assoc (s1 s2 t : string) :
  String.prefix (s1 ++ s2) (s1 ++ (s2 ++ t)) = true.
Proof.
  induction s1 as [| c s IH]; [exact (prefix_append s2 t) |].
  change (String c s ++ s2) with (String c (s ++ s2)).
  change (String c s ++ (s2 ++ t)) with (String c (s ++ (s2 ++ t))). cbn [String.prefix].
  destruct (ascii_dec c c) as [_ | Hc]; [exact IH | contradiction].
Qed.

Lemma py_random_choice_In {A} (r : nat) (l : list A) (x : A) :
  py_random_choice r l = Ok x -> In x l.
Proof.
  unfold py_random_choice. destruct l as [| a l']; [discriminate |].
  intros H. assert (Hx : x = nth (r mod length (a :: l')) (a :: l') a) by congruence.
  rewrite Hx. apply nth_In, Nat.mod_upper_bound. discriminate.
Qed.

(** Every fact of the local fallback is about [num]: it starts with
    [str(num)], or with ["The factorial of " + str(num)]. *)
Theorem get_local_fun_fact_mentions_num (r : nat) (num : Z) (fact : string) :
  get_local_fun_fact r num = Ok fact ->
  String.prefix (py_str num) fact = true \/
  String.prefix ("The factorial of " ++ py_str num) fact = true.
Proof.
  unfold get_local_fun_fact.
  destruct (is_fibonacci num) as [fib |]; cbn [bind]; [| discriminate].
  match goal with |- bind ?m _ = _ -> _ => destruct m as [f |] end; cbn [bind]; [| discriminate].
  destruct (perfect_square_check num) as [sq |]; cbn [bind]; [| discriminate].
  destruct (py_cube_check num) as [cube |]; cbn [bind]; [| discriminate].
  intros Hin. apply py_random_choice_In in Hin. cbn [In] in Hin.
  repeat match type of Hin with
  | _ \/ _ => destruct Hin as [<- | Hin]
  | False => contradiction
  end;
  solve [left; apply prefix_append | right; apply prefix_append_assoc].
Qed.

End Properties.

(** * The theorems at concrete inputs

    Computed with the example instance [cbrt_nearest] for
    [round(num ** (1/3))]. *)

#[local] Existing Instance cbrt_nearest.

Lemma get_number_properties_negative_500_witness :
  (-1 < 0)%Z /\
  get_number_properties HttpTimeout 0 (-1) = Status500 (internal_error "isqrt() argument must be nonnegative").
Proof. split; [lia | apply (get_number_properties_negative_500 HttpTimeout 0 (-1)); lia]. Defined.


Lemma get_number_properties_emoji_witness :
  exists resp, get_number_properties HttpTimeout 0 3 = Status200 resp /\
    (emoji resp = nth (Z.to_nat (Z.abs 3 mod 10)) EMOJIS "" /\
     In (emoji resp) EMOJIS /\
     (forall o' r' resp', get_number_properties o' r' 3 = Status200 resp' ->
        emoji resp' = emoji resp)).
Proof.
  eexists. split; [reflexivity |].
  apply (get_number_properties_emoji HttpTimeout 0 3). reflexivity.
Defined.

Lemma get_local_fun_fact_ok_witness :
  (0 <= 7 < float_overflow_bound)%Z /\ exists fact, get_local_fun_fact 3 7 = Ok fact.
Proof.
  split; [unfold float_overflow_bound; lia |].
  apply (get_local_fun_fact_ok 3 7). unfold float_overflow_bound; lia.
Defined.

Lemma get_number_properties_nonneg_200_witness :
  (0 <= 12 < float_overflow_bound)%Z /\
  exists resp, get_number_properties HttpConnectionError 5 12 = Status200 resp /\ number resp = 12%Z.
Proof.
  split; [unfold float_overflow_bound; lia |].
  apply (get_number_properties_nonneg_200 HttpConnectionError 5 12).
  unfold float_overflow_bound; lia.
Defined.

Lemma get_number_properties_huge_500_witness :
  (float_overflow_bound <= 2 ^ 1024)%Z /\
  get_number_properties HttpTimeout 0 (2 ^ 1024) =
    Status500 (internal_error "int too large to convert to float").
Proof.
  split; [unfold float_overflow_bound; lia |].
  apply (get_number_properties_huge_500 HttpTimeout 0 (2 ^ 1024)).
  unfold float_overflow_bound; lia.
Defined.

Lemma get_number_properties_tags_agree_witness :
  exists resp, get_number_properties HttpTimeout 2 6 = Status200 resp /\
    Forall (fun kt => dict_get (fst kt) (properties resp) =
                      Some (VBool (existsb (String.eqb (snd kt)) (classification resp))))
      property_tags.
Proof.
  eexists. split; [reflexivity |].
  apply (get_number_properties_tags_agree HttpTimeout 2 6). reflexivity.
Defined.

Lemma binary_hexadecimal_roundtrip_witness :
  (0 <= 2024)%Z /\
  read_digits 2 (binary_property 2024) = Some 2024%Z /\
  read_digits 16 (hexadecimal_property 2024) = Some 2024%Z.
Proof. split; [lia | apply (binary_hexadecimal_roundtrip 2024); lia]. Defined.

Lemma get_number_properties_digit_sum_witness :
  exists resp, get_number_properties HttpTimeout 0 987 = Status200 resp /\
    exists s, dict_get "digit_sum" (properties resp) = Some (VInt s) /\
      (0 <= s)%Z /\ (s mod 9 = Z.abs 987 mod 9)%Z.
Proof.
  eexists. split; [reflexivity |].
  apply (get_number_properties_digit_sum HttpTimeout 0 987). reflexivity.
Defined.

Lemma get_factors_sorted_nodup_witness :
  get_factors (-12) = Ok [-12; -6; -4; 1; 2; 3]%Z /\
  StronglySorted Z.le [-12; -6; -4; 1; 2; 3]%Z /\ NoDup [-12; -6; -4; 1; 2; 3]%Z.
Proof.
  split; [vm_compute; reflexivity |].
  apply (get_factors_sorted_nodup (-12)). vm_compute. reflexivity.
Defined.

Lemma get_number_properties_never_negative_witness :
  exists resp, get_number_properties HttpTimeout 0 0 = Status200 resp /\
    dict_get "absolute_value" (properties resp) = Some (VInt 0) /\
    dict_get "sign" (properties resp) <> Some (VStr "negative").
Proof.
  eexists. split; [reflexivity |].
  apply (get_number_properties_never_negative HttpTimeout 0 0). reflexivity.
Defined.

Lemma get_local_fun_fact_mentions_num_witness :
  exists fact, get_local_fun_fact 6 12 = Ok fact /\
    (String.prefix (py_str 12) fact = true \/
     String.prefix ("The factorial of " ++ py_str 12) fact = true).
Proof.
  eexists. split; [reflexivity |].
  apply (get_local_fun_fact_mentions_num 6 12). reflexivity.
Defined.

Lemma get_number_properties_factorial_witness :
  (0 <= 5)%Z /\
  ((5 < float_overflow_bound)%Z ->
     exists resp, get_number_properties HttpTimeout 0 5 = Status200 resp /\
       dict_get "factorial" (properties resp) =
         Some (if (5 <? 20)%Z then VInt (Z.of_nat (fact (Z.to_nat 5)))
               else VStr "Too large to calculate")) /\
  ((float_overflow_bound <= 5)%Z ->
     get_number_properties HttpTimeout 0 5 =
       Status500 (internal_error "int too large to convert to float")).
Proof. split; [lia | apply (get_number_properties_factorial HttpTimeout 0 5); lia]. Defined.

Lemma get_factors_divisors_witness :
  get_factors 12 = Ok [1; 2; 3; 4; 6; 12]%Z /\
  (forall d, In d [1; 2; 3; 4; 6; 12]%Z -> (d | 12)%Z /\ ((0 < 12)%Z -> (0 < d)%Z)).
Proof.
  split; [vm_compute; reflexivity |].
  apply (get_factors_divisors 12). vm_compute. reflexivity.
Defined.
